(** * CSV filter / aggregate script: a shallow embedding of [script.py]

    The development follows the four core functions of the script,
    [parse_condition], [parse_aggregation], [apply_filter] and
    [apply_aggregation], together with the Python builtins they call
    ([str.strip], [str.lower], [in], [str.split], [float], [sum], [min],
    [max], comparisons on [str] and [float]).

    Conventions.
    - A Python [str] is a [string]; a character is a code point below 256.
    - A Python [float] is an IEEE 754 binary64 value, [spec_float] with
      precision 53 and maximal exponent 1024.
    - A row (a [dict] produced by [csv.DictReader]) is a finite map from
      column names to cells, [gmap string string].
    - A call either returns a value or raises: [result].  [sys.exit] is
      the exception [SystemExit]; the messages are kept as constructors
      carrying the texts that the script formats into them.

    The file has three parts: the script and the builtins it uses, the
    vocabulary in which the properties are stated, and the properties. *)

From Stdlib Require Import ZArith List String Ascii Bool Lia SpecFloat.
From stdpp Require Import gmap strings.
Import ListNotations.

Local Open Scope string_scope.
Local Open Scope list_scope.

(** ** Exceptions and results *)

(** What the script reports.  The first three are the payloads of the
    [ValueError]s raised by the two parsers, the next three the messages
    handed to [sys.exit] by the two engines, the seventh is the
    [ValueError] of a tuple assignment whose right-hand side is too
    short. *)
Inductive message : Type :=
| MalformedCondition (condition_str : string)
| MalformedAggregation (aggregation_str : string)
| UnsupportedFunction (func_name : string)
| UnknownColumn (column : string)
| NonNumericCell (cell_value column : string)
| NonNumericColumn (cell_value column : string)
| NotEnoughValuesToUnpack.

Inductive exc : Type :=
| ValueError (m : message)
| SystemExit (m : message)
| IndexError
| KeyError (key : string)
| TypeError
| ZeroDivisionError.

Inductive result (A : Type) : Type :=
| Ok (a : A)
| Raise (e : exc).
Arguments Ok {A} a.
Arguments Raise {A} e.

Definition bind {A B : Type} (r : result A) (k : A -> result B) : result B :=
  match r with
  | Ok a => k a
  | Raise e => Raise e
  end.

Notation "'let*' p ':=' r 'in' k" := (bind r (fun p => k))
  (at level 10, p pattern, r at level 200, k at level 200).

(** ** Python [str] builtins *)
Module PyStr.

(** [str.isspace] on a single character (code points below 256). *)
Definition isspace (c : ascii) : bool :=
  let n := nat_of_ascii c in
  (((9 <=? n) && (n <=? 13)) || ((28 <=? n) && (n <=? 32))
  || (n =? 133) || (n =? 160))%nat.

(** Removal of the leading, then of the trailing characters of a class. *)
Fixpoint lstrip_with (p : ascii -> bool) (s : string) : string :=
  match s with
  | EmptyString => EmptyString
  | String c s' => if p c then lstrip_with p s' else s
  end.

Fixpoint rstrip_with (p : ascii -> bool) (s : string) : string :=
  match s with
  | EmptyString => EmptyString
  | String c s' =>
      match rstrip_with p s' with
      | EmptyString => if p c then EmptyString else String c EmptyString
      | t => String c t
      end
  end.

Definition strip_with (p : ascii -> bool) (s : string) : string :=
  rstrip_with p (lstrip_with p s).

(** [s.strip()] *)
Definition strip (s : string) : string := strip_with isspace s.

Definition lower_char (c : ascii) : ascii :=
  let n := nat_of_ascii c in
  if (((65 <=? n) && (n <=? 90))
      || ((192 <=? n) && (n <=? 222) && negb (n =? 215)))%nat
  then ascii_of_nat (n + 32) else c.

(** [s.lower()] *)
Fixpoint lower (s : string) : string :=
  match s with
  | EmptyString => EmptyString
  | String c s' => String (lower_char c) (lower s')
  end.

(** [s[n:]] *)
Fixpoint drop (n : nat) (s : string) : string :=
  match n, s with
  | O, _ => s
  | S n', String _ s' => drop n' s'
  | S _, EmptyString => EmptyString
  end.

(** [sub in s] *)
Fixpoint contains (sub s : string) : bool :=
  String.prefix sub s ||
  match s with
  | EmptyString => false
  | String _ s' => contains sub s'
  end.

(** [s.partition(sep)] when [sep] occurs in [s]: the text before and the
    text after the first occurrence. *)
Fixpoint split_first (sep s : string) : option (string * string) :=
  if String.prefix sep s then Some (EmptyString, drop (String.length sep) s)
  else
    match s with
    | EmptyString => None
    | String c s' =>
        match split_first sep s' with
        | Some (l, r) => Some (String c l, r)
        | None => None
        end
    end.

(** [s.split(sep, 1)] for a non-empty separator. *)
Definition split1 (sep s : string) : list string :=
  match split_first sep s with
  | Some (l, r) => [l; r]
  | None => [s]
  end.

(** [a < b], [a <= b], [a > b], [a >= b], [a == b] on [str]: code point
    by code point. *)
Definition lt (a b : string) : bool := String.ltb a b.
Definition le (a b : string) : bool := String.leb a b.
Definition gt (a b : string) : bool := String.ltb b a.
Definition ge (a b : string) : bool := String.leb b a.
Definition eq (a b : string) : bool := String.eqb a b.

End PyStr.

(** ** Python [float] *)
Module PyFloat.

Definition prec : Z := 53.
Definition emax : Z := 1024.

Abbreviation float := spec_float.

Definition zero : float := S754_zero false.
Definition nan : float := S754_nan.
Definition infinity : float := S754_infinity false.

(** [float(n)] for an [int] within range. *)
Definition of_Z (n : Z) : float := binary_normalize prec emax n 0 false.

Definition add (x y : float) : float := SFadd prec emax x y.
Definition div (x y : float) : float := SFdiv prec emax x y.

(** [x / n] for a [float] and an [int]: the integer is converted, and a
    zero divisor raises.  A non-zero integer converts to a non-zero
    [float], so the test is made on the integer. *)
Definition truediv_int (x : float) (n : Z) : result float :=
  if (n =? 0)%Z then Raise ZeroDivisionError else Ok (div x (of_Z n)).

(** [x < y], [x <= y], [x > y], [x >= y], [x == y] *)
Definition lt (x y : float) : bool := SFltb x y.
Definition le (x y : float) : bool := SFleb x y.
Definition gt (x y : float) : bool := SFltb y x.
Definition ge (x y : float) : bool := SFleb y x.
Definition eq (x y : float) : bool := SFeqb x y.

(** [math.isnan(x)] *)
Definition is_nan (x : float) : bool :=
  match x with
  | S754_nan => true
  | _ => false
  end.

(** *** [float(s)] for a [str]

    Surrounding white space is dropped, single underscores between
    digits are dropped, and what is left is an optional sign followed by
    [inf], [infinity], [nan] (in any case) or by a decimal numeral with
    an optional exponent.  The numeral is rounded to the nearest binary64
    value, ties to even. *)

Definition isspace (c : ascii) : bool :=
  let n := nat_of_ascii c in
  (((9 <=? n) && (n <=? 13)) || (n =? 32) || (n =? 133) || (n =? 160))%nat.

Definition isdigit (c : ascii) : bool :=
  let n := nat_of_ascii c in ((48 <=? n) && (n <=? 57))%nat.

Definition is_underscore (c : ascii) : bool := Ascii.eqb c "_".

(** An underscore must follow a digit and precede a digit. *)
Fixpoint drop_underscores (prev : ascii) (s : string) : option string :=
  match s with
  | EmptyString => if is_underscore prev then None else Some EmptyString
  | String c s' =>
      if is_underscore c then
        if isdigit prev then drop_underscores c s' else None
      else if is_underscore prev && negb (isdigit c) then None
      else option_map (String c) (drop_underscores c s')
  end.

(** The longest prefix of digits, and the rest. *)
Fixpoint span_digits (s : string) : string * string :=
  match s with
  | EmptyString => (EmptyString, EmptyString)
  | String c s' =>
      if isdigit c then
        let '(ds, rest) := span_digits s' in (String c ds, rest)
      else (EmptyString, s)
  end.

Fixpoint Z_of_digits_from (acc : Z) (ds : string) : Z :=
  match ds with
  | EmptyString => acc
  | String c ds' =>
      Z_of_digits_from (10 * acc + (Z.of_nat (nat_of_ascii c) - 48)) ds'
  end.

Definition Z_of_digits (ds : string) : Z := Z_of_digits_from 0 ds.

(** An optional sign: [true] for [-]. *)
Definition split_sign (s : string) : bool * string :=
  match s with
  | String "-" s' => (true, s')
  | String "+" s' => (false, s')
  | _ => (false, s)
  end.

(** The exponent part: nothing, or [e] or [E], an optional sign and at
    least one digit, up to the end of the text. *)
Definition parse_exponent (s : string) : option Z :=
  match s with
  | EmptyString => Some 0%Z
  | String c s' =>
      if Ascii.eqb c "e" || Ascii.eqb c "E" then
        let '(neg, s'') := split_sign s' in
        match span_digits s'' with
        | (String d ds, EmptyString) =>
            let e := Z_of_digits (String d ds) in
            Some (if neg then (- e)%Z else e)
        | _ => None
        end
      else None
  end.

(** A decimal numeral as a pair [(m, e)] standing for [m * 10 ^ e]. *)
Definition parse_decimal (s : string) : option (Z * Z) :=
  let '(int_part, rest) := span_digits s in
  let '(frac_part, rest) :=
    match rest with
    | String "." rest' => span_digits rest'
    | _ => (EmptyString, rest)
    end in
  match (String.length int_part + String.length frac_part)%nat with
  | O => None
  | S _ =>
      match parse_exponent rest with
      | Some e =>
          Some (Z_of_digits (int_part +:+ frac_part),
                (e - Z.of_nat (String.length frac_part))%Z)
      | None => None
      end
  end.

(** The binary64 value nearest to [m * 10 ^ e], with the given sign. *)
Definition of_decimal (neg : bool) (m e : Z) : float :=
  match m with
  | Zpos p =>
      if (0 <=? e)%Z then
        binary_normalize prec emax (cond_Zopp neg (m * 10 ^ e)) 0 neg
      else
        let '(q, e', l) := SFdiv_core_binary prec emax m 0 (10 ^ (- e)) 0 in
        binary_round_aux prec emax neg q e' l
  | _ => S754_zero neg
  end.

Definition lower_ascii (c : ascii) : ascii :=
  let n := nat_of_ascii c in
  if ((65 <=? n) && (n <=? 90))%nat then ascii_of_nat (n + 32) else c.

Fixpoint lower_ascii_string (s : string) : string :=
  match s with
  | EmptyString => EmptyString
  | String c s' => String (lower_ascii c) (lower_ascii_string s')
  end.

(** [float(s)]: [None] stands for the [ValueError]. *)
Definition of_string (s : string) : option float :=
  match drop_underscores "000" (PyStr.strip_with isspace s) with
  | None => None
  | Some t =>
      let '(neg, body) := split_sign t in
      let word := lower_ascii_string body in
      if String.eqb word "inf" || String.eqb word "infinity" then
        Some (S754_infinity neg)
      else if String.eqb word "nan" then Some S754_nan
      else
        match parse_decimal body with
        | Some (m, e) => Some (of_decimal neg m e)
        | None => None
        end
  end.

(** [sum(values)]: the additions are made from left to right, starting
    from the integer 0, which the first addition converts to [0.0].
    (CPython 3.12 and later compensate the rounding errors of these
    additions, which can change the last bits of an inexact sum.) *)
Definition sum (values : list float) : float := fold_left add values zero.

(** [min(values)] and [max(values)] on a non-empty list: the first
    element is kept until a later one is strictly smaller (greater). *)
Definition min (first : float) (others : list float) : float :=
  fold_left (fun best item => if lt item best then item else best) others first.

Definition max (first : float) (others : list float) : float :=
  fold_left (fun best item => if gt item best then item else best) others first.

End PyFloat.

(** ** The two parsers *)

(** The list of supported operators, in the order they are tried. *)
Definition operators : list string := [">="; "<="; ">"; "<"; "=="; "="].

(** The body of the [for op in operators] loop of [parse_condition]: the
    first operator that occurs in the string and whose split has two
    parts decides; when the list is exhausted the [ValueError] is
    raised. *)
Fixpoint parse_condition_loop (ops : list string) (condition_str : string)
  : result (string * string * string) :=
  match ops with
  | [] => Raise (ValueError (MalformedCondition condition_str))
  | op :: ops' =>
      if PyStr.contains op condition_str then
        match PyStr.split1 op condition_str with
        | [part0; part1] =>
            let column := PyStr.strip part0 in
            let value_str := PyStr.strip part1 in
            let op := if String.eqb op "=" then "==" else op in
            Ok (column, op, value_str)
        | _ => parse_condition_loop ops' condition_str
        end
      else parse_condition_loop ops' condition_str
  end.

Definition parse_condition (condition_str : string)
  : result (string * string * string) :=
  parse_condition_loop operators condition_str.

Definition parse_aggregation (aggregation_str : string)
  : result (string * string) :=
  if negb (PyStr.contains "=" aggregation_str) then
    Raise (ValueError (MalformedAggregation aggregation_str))
  else
    match PyStr.split1 "=" aggregation_str with
    | [func_name; column] =>
        let func_name := PyStr.lower (PyStr.strip func_name) in
        let column := PyStr.strip column in
        if negb (existsb (String.eqb func_name) ["avg"; "min"; "max"]) then
          Raise (ValueError (UnsupportedFunction func_name))
        else Ok (func_name, column)
    | _ => Raise (ValueError NotEnoughValuesToUnpack)
    end.

(** ** The two engines *)

(** A row of the CSV file: a [dict] from column names to cells. *)
Abbreviation row := (gmap string string).

(** [row[column]] *)
Definition getitem (r : row) (column : string) : result string :=
  match r !! column with
  | Some cell => Ok cell
  | None => Raise (KeyError column)
  end.

(** [column in row] *)
Definition has_key (column : string) (r : row) : bool :=
  match r !! column with
  | Some _ => true
  | None => false
  end.

(** [data[0]] *)
Definition first_row (data : list row) : result row :=
  match data with
  | [] => Raise IndexError
  | r :: _ => Ok r
  end.

(** The comparison value of a condition, and a cell when it is compared
    with it: a [float] or a [str]. *)
Inductive value : Type :=
| VFloat (x : PyFloat.float)
| VStr (s : string).

(** The comparison operators on such values.  An ordering between a
    [float] and a [str] raises [TypeError], an equality is [False]. *)
Definition py_gt (a b : value) : result bool :=
  match a, b with
  | VFloat x, VFloat y => Ok (PyFloat.gt x y)
  | VStr x, VStr y => Ok (PyStr.gt x y)
  | _, _ => Raise TypeError
  end.

Definition py_lt (a b : value) : result bool :=
  match a, b with
  | VFloat x, VFloat y => Ok (PyFloat.lt x y)
  | VStr x, VStr y => Ok (PyStr.lt x y)
  | _, _ => Raise TypeError
  end.

Definition py_ge (a b : value) : result bool :=
  match a, b with
  | VFloat x, VFloat y => Ok (PyFloat.ge x y)
  | VStr x, VStr y => Ok (PyStr.ge x y)
  | _, _ => Raise TypeError
  end.

Definition py_le (a b : value) : result bool :=
  match a, b with
  | VFloat x, VFloat y => Ok (PyFloat.le x y)
  | VStr x, VStr y => Ok (PyStr.le x y)
  | _, _ => Raise TypeError
  end.

Definition py_eq (a b : value) : result bool :=
  match a, b with
  | VFloat x, VFloat y => Ok (PyFloat.eq x y)
  | VStr x, VStr y => Ok (PyStr.eq x y)
  | _, _ => Ok false
  end.

(** [a and b]: the right operand is evaluated only when the left one
    holds. *)
Definition and_then (a : bool) (b : result bool) : result bool :=
  if a then b else Ok false.

(** The parsers' [ValueError] becomes the engines' [sys.exit]. *)
Definition exit_on_ValueError {A : Type} (r : result A) : result A :=
  match r with
  | Raise (ValueError m) => Raise (SystemExit m)
  | _ => r
  end.

(** [value = float(value_str)], or [value_str] itself when that fails. *)
Definition coerce_value (value_str : string) : value :=
  match PyFloat.of_string value_str with
  | Some x => VFloat x
  | None => VStr value_str
  end.

(** The body of the loop of [apply_filter] on one row: whether the row is
    appended to [filtered_data]. *)
Definition filter_row (column operator : string) (v : value) (r : row)
  : result bool :=
  let* cell := getitem r column in
  let* cell_value :=
    match v with
    | VFloat _ =>
        match PyFloat.of_string cell with
        | Some x => Ok (VFloat x)
        | None => Raise (SystemExit (NonNumericCell cell column))
        end
    | VStr _ => Ok (VStr cell)
    end in
  let* c := and_then (String.eqb operator ">") (py_gt cell_value v) in
  if c then Ok true else
  let* c := and_then (String.eqb operator "<") (py_lt cell_value v) in
  if c then Ok true else
  let* c := and_then (String.eqb operator ">=") (py_ge cell_value v) in
  if c then Ok true else
  let* c := and_then (String.eqb operator "<=") (py_le cell_value v) in
  if c then Ok true else
  let* c := and_then (String.eqb operator "==") (py_eq cell_value v) in
  if c then Ok true else Ok false.

Fixpoint filter_loop (column operator : string) (v : value)
  (data filtered_data : list row) : result (list row) :=
  match data with
  | [] => Ok filtered_data
  | r :: data' =>
      let* keep := filter_row column operator v r in
      filter_loop column operator v data'
        (if keep then filtered_data ++ [r] else filtered_data)
  end.

Definition apply_filter (data : list row) (condition_str : string)
  : result (list row) :=
  let* (column, operator, value_str) :=
    exit_on_ValueError (parse_condition condition_str) in
  let* row0 := first_row data in
  if negb (has_key column row0) then Raise (SystemExit (UnknownColumn column))
  else filter_loop column operator (coerce_value value_str) data [].

(** The loop of [apply_aggregation] that collects the numbers. *)
Fixpoint values_loop (column : string) (data : list row)
  (values : list PyFloat.float) : result (list PyFloat.float) :=
  match data with
  | [] => Ok values
  | r :: data' =>
      let* cell := getitem r column in
      match PyFloat.of_string cell with
      | Some num_value => values_loop column data' (values ++ [num_value])
      | None => Raise (SystemExit (NonNumericColumn cell column))
      end
  end.

Definition apply_aggregation (data : list row) (aggregation_str : string)
  : result PyFloat.float :=
  let* (func_name, column) :=
    exit_on_ValueError (parse_aggregation aggregation_str) in
  let* row0 := first_row data in
  if negb (has_key column row0) then Raise (SystemExit (UnknownColumn column))
  else
    let* values := values_loop column data [] in
    match values with
    | [] => Ok PyFloat.zero
    | first :: others =>
        if String.eqb func_name "avg" then
          PyFloat.truediv_int (PyFloat.sum values) (Z.of_nat (length values))
        else if String.eqb func_name "min" then Ok (PyFloat.min first others)
        else if String.eqb func_name "max" then Ok (PyFloat.max first others)
        else Ok PyFloat.zero
    end.

(** ** The driver *)

(** What [main] prints: the notice for a file without rows, the line of
    an aggregate ([three_decimals] tells whether the value is formatted
    with [.3f] or as it is), or the table of the rows. *)
Inductive printed : Type :=
| NoData
| AggregateLine (func_name column : string) (result : PyFloat.float)
    (three_decimals : bool)
| Table (rows : list row).

(** The truth value of an optional argument of the command line: an
    absent argument and the empty text are false. *)
Definition given (arg : option string) : option string :=
  match arg with
  | Some EmptyString => None
  | _ => arg
  end.

(** [main] once the arguments are parsed and the file is read: [data] is
    [list(reader)], [args_where] and [args_aggregate] are [args.where]
    and [args.aggregate]. *)
Definition main (data : list row) (args_where args_aggregate : option string)
  : result printed :=
  match data with
  | [] => Ok NoData
  | _ :: _ =>
      let* filtered_data :=
        match given args_where with
        | Some condition_str => apply_filter data condition_str
        | None => Ok data
        end in
      match given args_aggregate with
      | Some aggregation_str =>
          let* result := apply_aggregation filtered_data aggregation_str in
          let* (func_name, column) := parse_aggregation aggregation_str in
          Ok (AggregateLine func_name column result
                (String.eqb func_name "avg"))
      | None => Ok (Table filtered_data)
      end
  end.

(** The rows of the test suite. *)
Definition product (name brand price rating : string) : row :=
  list_to_map [("name", name); ("brand", brand); ("price", price); ("rating", rating)].

Definition sample_data : list row :=
  [ product "iphone 15 pro" "apple" "999" "4.9";
    product "galaxy s23 ultra" "samsung" "1199" "4.8";
    product "redmi note 12" "xiaomi" "199" "4.6";
    product "poco x5 pro" "xiaomi" "299" "4.4" ].

(** * Vocabulary of the properties *)

(** ** Occurrences of a text in a string *)

(** [sub] occurs in [s]. *)
Definition occurs (sub s : string) : Prop :=
  exists l r, s = l +:+ sub +:+ r.

(** [l] and [r] are what stands before and after the first occurrence of
    [sep] in [s]. *)
Definition first_occurrence (sep s l r : string) : Prop :=
  s = l +:+ sep +:+ r /\
  forall l' r', s = l' +:+ sep +:+ r' -> String.length l <= String.length l'.

(** [op] is the first element of [ops] that occurs in [s]. *)
Definition first_operator (ops : list string) (s op : string) : Prop :=
  exists before after,
    ops = before ++ op :: after /\ occurs op s /\
    Forall (fun o => ~ occurs o s) before.

(** The operator handed on: a bare [=] becomes [==]. *)
Definition normalized (op : string) : string :=
  if String.eqb op "=" then "==" else op.

(** The supported aggregation functions. *)
Definition supported : list string := ["avg"; "min"; "max"].

(** ** Comparisons *)

(** What a condition means on a pair of numbers and on a pair of texts,
    read off the three-way comparison.  A NaN compares with nothing. *)
Definition holds (operator : string) (c : option comparison) : bool :=
  match c with
  | Some Lt => String.eqb operator "<" || String.eqb operator "<="
  | Some Eq => String.eqb operator ">=" || String.eqb operator "<="
               || String.eqb operator "=="
  | Some Gt => String.eqb operator ">" || String.eqb operator ">="
  | None => false
  end.

Definition holds_float (operator : string) (x y : PyFloat.float) : bool :=
  holds operator (SFcompare x y).

Definition holds_str (operator : string) (a b : string) : bool :=
  holds operator (Some (String.compare a b)).

(** The row satisfies the condition [column operator value_str]: with a
    numeric comparison value the cell is compared as a number, otherwise
    as a text. *)
Definition satisfies (column operator value_str : string) (r : row) : bool :=
  match r !! column with
  | None => false
  | Some cell =>
      match PyFloat.of_string value_str with
      | Some y =>
          match PyFloat.of_string cell with
          | Some x => holds_float operator x y
          | None => false
          end
      | None => holds_str operator cell value_str
      end
  end.

(** The row has the column and, when the comparison value is numeric,
    its cell is numeric too. *)
Definition comparable (column value_str : string) (r : row) : Prop :=
  exists cell, r !! column = Some cell /\
    (PyFloat.of_string value_str <> None -> PyFloat.of_string cell <> None).

(** The cell of the row under the column is the text of the number. *)
Definition numeric_cell (column : string) (r : row) (x : PyFloat.float)
  : Prop :=
  exists cell, r !! column = Some cell /\ PyFloat.of_string cell = Some x.

(** The arithmetic mean in binary64 arithmetic: the sum of the values,
    added from left to right, divided by their number. *)
Definition arithmetic_mean (vs : list PyFloat.float) : PyFloat.float :=
  PyFloat.div (PyFloat.sum vs) (PyFloat.of_Z (Z.of_nat (length vs))).

(** [min] and [max] are instances of one loop: [beats item best] is the
    test that replaces the element kept so far. *)
Definition keep_best (beats : PyFloat.float -> PyFloat.float -> bool)
  (first : PyFloat.float) (others : list PyFloat.float) : PyFloat.float :=
  fold_left (fun best item => if beats item best then item else best)
    others first.

(** ** Characters and trimmed texts *)

(** The characters the operators are made of. *)
Definition is_operator_char (c : ascii) : bool :=
  Ascii.eqb c ">" || Ascii.eqb c "<" || Ascii.eqb c "=".

(** No character of the text is one of [>], [<], [=]. *)
Fixpoint clean (s : string) : bool :=
  match s with
  | EmptyString => true
  | String c s' => negb (is_operator_char c) && clean s'
  end.

(** The text has no white space at either end. *)
Definition trimmed (s : string) : Prop := PyStr.strip s = s.

(** The white space that [str.strip] removes, by code point. *)
Definition white_space (c : ascii) : Prop :=
  let n := nat_of_ascii c in
  (9 <= n /\ n <= 13) \/ (28 <= n /\ n <= 32) \/ n = 133 \/ n = 160.

(** Every character of the text is white space. *)
Fixpoint all_white (s : string) : Prop :=
  match s with
  | EmptyString => True
  | String c s' => white_space c /\ all_white s'
  end.

(** The text neither starts nor ends with white space. *)
Definition no_white_ends (t : string) : Prop :=
  (forall c rest, t = String c rest -> ~ white_space c) /\
  (forall init c, t = init +:+ String c EmptyString -> ~ white_space c).

(** [t] is [s] without its leading and its trailing white space. *)
Definition trim_of (s t : string) : Prop :=
  exists before after,
    s = before +:+ t +:+ after /\
    all_white before /\ all_white after /\ no_white_ends t.

(** The cell of the row under the column parses as the number. *)
Definition cell_number (column : string) (r : row) : option PyFloat.float :=
  match r !! column with
  | Some cell => PyFloat.of_string cell
  | None => None
  end.

(** Neither the comparison value nor the cell of the row is a NaN. *)
Definition nan_free (column value_str : string) (r : row) : Prop :=
  match PyFloat.of_string value_str, cell_number column r with
  | Some y, Some x => PyFloat.is_nan x = false /\ PyFloat.is_nan y = false
  | _, _ => True
  end.

(** ** Datasets used in the examples *)

Definition first_row_only : list row := [ {[ "a" := "1" ]}; {[ "b" := "2" ]} ].

Definition second_price_bad : list row :=
  [ {[ "price" := "10" ]}; {[ "price" := "n/a" ]}; {[ "price" := "oops" ]} ].

Definition non_numeric_price : list row := [ {[ "price" := "abc" ]} ].

Definition two_prices : list row :=
  [ {[ "price" := "600" ]}; {[ "price" := "700" ]} ].

Definition one_name : list row := [ {[ "name" := "b" ]} ].

Definition nan_first : list row := [ {[ "p" := "nan" ]}; {[ "p" := "1" ]} ].

Definition nan_last : list row := [ {[ "p" := "1" ]}; {[ "p" := "nan" ]} ].

Definition huge : list row := [ {[ "p" := "1e308" ]}; {[ "p" := "1e308" ]} ].

(** * Properties *)

(** ** The test suite's cases *)

Example parse_condition_price : parse_condition "price>500" = Ok ("price", ">", "500").
Proof. reflexivity. Qed.
Example parse_condition_rating : parse_condition "rating>=4.5" = Ok ("rating", ">=", "4.5").
Proof. reflexivity. Qed.
Example parse_aggregation_avg : parse_aggregation "avg=price" = Ok ("avg", "price").
Proof. reflexivity. Qed.

Example filter_price : apply_filter sample_data "price>500" = Ok (firstn 2 sample_data).
Proof. vm_cast_no_check (eq_refl (Ok (firstn 2 sample_data))). Qed.
Example filter_brand : apply_filter sample_data "brand==xiaomi" = Ok (skipn 2 sample_data).
Proof. vm_cast_no_check (eq_refl (Ok (skipn 2 sample_data))). Qed.
Example avg_price : apply_aggregation sample_data "avg=price" = Ok (PyFloat.of_Z 674).
Proof. vm_compute. reflexivity. Qed.
Example max_price : apply_aggregation sample_data "max=price" = Ok (PyFloat.of_Z 1199).
Proof. vm_compute. reflexivity. Qed.
Example min_rating : apply_aggregation sample_data "min=rating" = Ok (PyFloat.of_decimal false 44 (-1)).
Proof. vm_compute. reflexivity. Qed.
Example agg_empty : apply_aggregation [] "avg=price" = Raise IndexError.
Proof. vm_compute. reflexivity. Qed.

(** The arithmetic is that of binary64: a NaN is kept by [min] and [max]
    when it comes first and passed over when it comes later, and a sum
    can overflow. *)
Example min_nan_first : apply_aggregation nan_first "min=p" = Ok PyFloat.nan.
Proof. vm_compute. reflexivity. Qed.
Example min_nan_last : apply_aggregation nan_last "min=p" = Ok (PyFloat.of_Z 1).
Proof. vm_compute. reflexivity. Qed.
Example avg_overflow : apply_aggregation huge "avg=p" = Ok PyFloat.infinity.
Proof. vm_compute. reflexivity. Qed.

Section Occurrences.

Lemma prefix_app (p r : string) : String.prefix p (p +:+ r) = true.
Proof.
  induction p as [|c p IH]; simpl.
  - now destruct r.
  - rewrite IH. destruct (ascii_dec c c); congruence.
Qed.

Lemma prefix_inv (p s : string) :
  String.prefix p s = true -> exists r, s = p +:+ r.
Proof.
  revert s. induction p as [|c p IH]; intros s H.
  - now exists s.
  - destruct s as [|d s]; simpl in H; [discriminate|].
    destruct (ascii_dec c d) as [->|]; [|discriminate].
    destruct (IH _ H) as [r ->]. now exists r.
Qed.

Lemma drop_app (p r : string) : PyStr.drop (String.length p) (p +:+ r) = r.
Proof. induction p as [|c p IH]; simpl; [now destruct r | exact IH]. Qed.

Lemma app_inj_length (a b a' b' : string) :
  a +:+ b = a' +:+ b' -> String.length a = String.length a' ->
  a = a' /\ b = b'.
Proof.
  revert a'. induction a as [|x a IH]; intros [|x' a'] H Hl;
    simpl in *; try discriminate.
  - now split.
  - injection H as -> H. destruct (IH a' H) as [-> ->]; [lia | now split].
Qed.

Lemma contains_occurs (sub s : string) :
  PyStr.contains sub s = true <-> occurs sub s.
Proof.
  split.
  - induction s as [|c s IH]; cbn [PyStr.contains]; intros H.
    + rewrite orb_false_r in H. destruct (prefix_inv _ _ H) as [r ->].
      now exists EmptyString, r.
    + apply orb_true_iff in H as [H|H].
      * destruct (prefix_inv _ _ H) as [r ->]. now exists EmptyString, r.
      * destruct (IH H) as (l & r & ->). now exists (String c l), r.
  - intros (l & r & ->). induction l as [|c l IH].
    + change (EmptyString +:+ sub +:+ r) with (sub +:+ r).
      destruct (sub +:+ r) eqn:E; cbn [PyStr.contains];
        rewrite <- E, prefix_app; reflexivity.
    + change (String c l +:+ sub +:+ r) with (String c (l +:+ sub +:+ r)).
      cbn [PyStr.contains]. rewrite IH. apply orb_true_r.
Qed.

Lemma not_contains_occurs (sub s : string) :
  PyStr.contains sub s = false <-> ~ occurs sub s.
Proof.
  rewrite <- contains_occurs. destruct (PyStr.contains sub s); split; congruence.
Qed.

Lemma prefix_drop (sep s : string) :
  String.prefix sep s = true -> s = sep +:+ PyStr.drop (String.length sep) s.
Proof.
  intros P. destruct (prefix_inv _ _ P) as [r ->]. now rewrite drop_app.
Qed.

Lemma split_first_eq (sep s : string) :
  PyStr.split_first sep s =
  if String.prefix sep s
  then Some (EmptyString, PyStr.drop (String.length sep) s)
  else match s with
       | EmptyString => None
       | String c s' =>
           match PyStr.split_first sep s' with
           | Some (l, r) => Some (String c l, r)
           | None => None
           end
       end.
Proof. destruct s; reflexivity. Qed.

Lemma split_first_first_occurrence (sep s l r : string) :
  PyStr.split_first sep s = Some (l, r) -> first_occurrence sep s l r.
Proof.
  revert l r. induction s as [|c s IH]; intros l r H;
    rewrite split_first_eq in H;
    match type of H with context [String.prefix sep ?t] =>
      destruct (String.prefix sep t) eqn:P end;
    try discriminate.
  - injection H as <- <-. split; [|simpl; lia]. now apply prefix_drop.
  - injection H as <- <-. split; [|simpl; lia]. now apply prefix_drop.
  - destruct (PyStr.split_first sep s) as [[l0 r0]|] eqn:E; [|discriminate].
    injection H as <- <-. destruct (IH _ _ eq_refl) as [-> Hmin].
    split; [reflexivity|]. intros [|c' l'] r' E'.
    + change (EmptyString +:+ sep +:+ r') with (sep +:+ r') in E'.
      rewrite E', prefix_app in P. discriminate.
    + change (String c' l' +:+ sep +:+ r') with (String c' (l' +:+ sep +:+ r')) in E'.
      injection E' as _ E'. specialize (Hmin _ _ E'). simpl. lia.
Qed.

Lemma occurs_split_first (sep s : string) :
  occurs sep s -> exists l r, PyStr.split_first sep s = Some (l, r).
Proof.
  intros (l & r & ->). induction l as [|c l IH].
  - change (EmptyString +:+ sep +:+ r) with (sep +:+ r).
    rewrite split_first_eq, prefix_app. eauto.
  - destruct IH as (l0 & r0 & E).
    change (String c l +:+ sep +:+ r) with (String c (l +:+ sep +:+ r)).
    rewrite split_first_eq, E.
    destruct (String.prefix sep _); eauto.
Qed.

Lemma first_occurrence_unique (sep s l r l' r' : string) :
  first_occurrence sep s l r -> first_occurrence sep s l' r' ->
  l = l' /\ r = r'.
Proof.
  intros [E Hm] [E' Hm'].
  pose proof (Hm _ _ E'). pose proof (Hm' _ _ E).
  rewrite E in E'. destruct (app_inj_length _ _ _ _ E') as [-> E2]; [lia|].
  split; [reflexivity|].
  destruct (app_inj_length _ _ _ _ E2) as [_ ->]; reflexivity.
Qed.

Lemma occurs_first_occurrence (sep s : string) :
  occurs sep s -> exists l r, first_occurrence sep s l r.
Proof.
  intros H. destruct (occurs_split_first _ _ H) as (l & r & E).
  exists l, r. now apply split_first_first_occurrence.
Qed.

(** [s.split(sep, 1)] has two parts exactly when [sep] occurs. *)
Lemma split1_first_occurrence (sep s l r : string) :
  first_occurrence sep s l r -> PyStr.split1 sep s = [l; r].
Proof.
  intros H. unfold PyStr.split1.
  destruct (occurs_split_first sep s) as (l0 & r0 & E).
  { destruct H as [-> _]. now exists l, r. }
  rewrite E. apply split_first_first_occurrence in E.
  destruct (first_occurrence_unique _ _ _ _ _ _ H E) as [-> ->]. reflexivity.
Qed.

Lemma occurs_dec (sub s : string) : {occurs sub s} + {~ occurs sub s}.
Proof.
  destruct (PyStr.contains sub s) eqn:E.
  - left. now apply contains_occurs.
  - right. now apply not_contains_occurs.
Defined.

End Occurrences.

(** ** Trimming *)

Section TrimSpec.

Lemma isspace_white_space (c : ascii) :
  PyStr.isspace c = true <-> white_space c.
Proof.
  unfold PyStr.isspace, white_space. cbv zeta.
  rewrite !orb_true_iff, !andb_true_iff, !Nat.leb_le, !Nat.eqb_eq. tauto.
Qed.

Lemma isspace_false (c : ascii) :
  PyStr.isspace c = false <-> ~ white_space c.
Proof.
  rewrite <- isspace_white_space. destruct (PyStr.isspace c); split; congruence.
Qed.

Lemma append_cons (c : ascii) (a b : string) :
  String c a +:+ b = String c (a +:+ b).
Proof. reflexivity. Qed.

Lemma append_nil_l (a : string) : EmptyString +:+ a = a.
Proof. reflexivity. Qed.

Lemma lstrip_spec (s : string) :
  exists before,
    s = before +:+ PyStr.lstrip_with PyStr.isspace s /\ all_white before /\
    forall c rest, PyStr.lstrip_with PyStr.isspace s = String c rest ->
                   ~ white_space c.
Proof.
  induction s as [|d s (before & E & Hw & Hh)].
  - exists EmptyString. repeat split. intros c rest H. discriminate H.
  - cbn [PyStr.lstrip_with]. destruct (PyStr.isspace d) eqn:D.
    + exists (String d before). rewrite append_cons, <- E.
      split; [reflexivity|]. split; [|exact Hh].
      split; [now apply isspace_white_space | exact Hw].
    + exists EmptyString. split; [reflexivity|]. split; [exact I|].
      intros c rest [= <- _]. now apply isspace_false.
Qed.

Lemma rstrip_cons (c : ascii) (s : string) :
  PyStr.rstrip_with PyStr.isspace (String c s) =
  match PyStr.rstrip_with PyStr.isspace s with
  | EmptyString =>
      if PyStr.isspace c then EmptyString else String c EmptyString
  | t => String c t
  end.
Proof. reflexivity. Qed.

Lemma rstrip_spec (s : string) :
  exists after,
    s = PyStr.rstrip_with PyStr.isspace s +:+ after /\ all_white after /\
    forall init c,
      PyStr.rstrip_with PyStr.isspace s = init +:+ String c EmptyString ->
      ~ white_space c.
Proof.
  induction s as [|d s (after & E & Hw & Hl)].
  - exists EmptyString. repeat split. intros [|? ?] c H; discriminate H.
  - rewrite rstrip_cons.
    destruct (PyStr.rstrip_with PyStr.isspace s) as [|e u] eqn:R.
    + rewrite append_nil_l in E. subst after.
      destruct (PyStr.isspace d) eqn:D.
      * exists (String d s). split; [reflexivity|].
        split; [split; [now apply isspace_white_space | exact Hw]|].
        intros [|? ?] c H; discriminate H.
      * exists s. split; [reflexivity|]. split; [exact Hw|].
        intros [|x init] c H.
        -- injection H as <-. now apply isspace_false.
        -- rewrite append_cons in H. injection H as _ H.
           destruct init; discriminate H.
    + exists after. rewrite append_cons, <- E. split; [reflexivity|].
      split; [exact Hw|]. intros [|x init] c H.
      * discriminate H.
      * rewrite append_cons in H. injection H as _ H. exact (Hl _ _ H).
Qed.

Lemma rstrip_head (s : string) (c : ascii) (rest : string) :
  PyStr.rstrip_with PyStr.isspace s = String c rest ->
  exists rest', s = String c rest'.
Proof.
  destruct s as [|d s]; [discriminate|]. rewrite rstrip_cons.
  destruct (PyStr.rstrip_with PyStr.isspace s);
    [destruct (PyStr.isspace d); [discriminate|]|];
    intros [= <- _]; eauto.
Qed.

(** [s.strip()] is [s] without its leading and trailing white space. *)
Lemma strip_trim_of (s : string) : trim_of s (PyStr.strip s).
Proof.
  unfold PyStr.strip, PyStr.strip_with.
  destruct (lstrip_spec s) as (before & E & Hb & Hh).
  destruct (rstrip_spec (PyStr.lstrip_with PyStr.isspace s))
    as (after & E' & Ha & Hl).
  exists before, after. split; [now rewrite <- E'|].
  split; [exact Hb|]. split; [exact Ha|]. split; [|exact Hl].
  intros c rest H. destruct (rstrip_head _ _ _ H) as [rest' H'].
  exact (Hh _ _ H').
Qed.

(** A text without white space at its ends is left as it is. *)
Lemma strip_no_white_ends (t : string) : no_white_ends t -> PyStr.strip t = t.
Proof.
  intros [Hh Hl]. unfold PyStr.strip, PyStr.strip_with.
  assert (L : PyStr.lstrip_with PyStr.isspace t = t).
  { destruct t as [|c t]; [reflexivity|]. cbn [PyStr.lstrip_with].
    now rewrite (proj2 (isspace_false c) (Hh _ _ eq_refl)). }
  rewrite L. clear L Hh. induction t as [|c t IH]; [reflexivity|].
  rewrite rstrip_cons. destruct t as [|d u].
  - cbn [PyStr.rstrip_with].
    now rewrite (proj2 (isspace_false c) (Hl EmptyString c eq_refl)).
  - rewrite IH; [reflexivity|].
    intros init c0 H. apply (Hl (String c init) c0).
    now rewrite append_cons, <- H.
Qed.

Lemma trimmed_no_white_ends (t : string) : trimmed t -> no_white_ends t.
Proof.
  intros H. destruct (strip_trim_of t) as (_ & _ & _ & _ & _ & Hn).
  now rewrite H in Hn.
Qed.

End TrimSpec.

(** ** [parse_condition] *)

Section ParseCondition.

Lemma parse_condition_loop_none (ops : list string) (s : string) :
  Forall (fun o => ~ occurs o s) ops ->
  parse_condition_loop ops s = Raise (ValueError (MalformedCondition s)).
Proof.
  induction 1 as [|o ops Ho _ IH]; [reflexivity|].
  cbn [parse_condition_loop].
  apply not_contains_occurs in Ho. rewrite Ho. exact IH.
Qed.

Lemma parse_condition_loop_skip (before ops : list string) (s : string) :
  Forall (fun o => ~ occurs o s) before ->
  parse_condition_loop (before ++ ops) s = parse_condition_loop ops s.
Proof.
  induction 1 as [|o before Ho _ IH]; [reflexivity|].
  cbn [app parse_condition_loop].
  apply not_contains_occurs in Ho. rewrite Ho. exact IH.
Qed.

(** The loop returns at the first operator of the list that occurs, with
    the two sides of its first occurrence. *)
Lemma parse_condition_loop_first (ops : list string) (s op l r : string) :
  first_operator ops s op -> first_occurrence op s l r ->
  parse_condition_loop ops s
  = Ok (PyStr.strip l, normalized op, PyStr.strip r).
Proof.
  intros (before & after & -> & Hocc & Hnone) Hfirst.
  rewrite parse_condition_loop_skip by assumption.
  cbn [parse_condition_loop].
  apply contains_occurs in Hocc. rewrite Hocc.
  rewrite (split1_first_occurrence _ _ _ _ Hfirst). reflexivity.
Qed.

Lemma first_operator_exists (ops : list string) (s : string) :
  (exists op, In op ops /\ occurs op s) -> exists op, first_operator ops s op.
Proof.
  induction ops as [|o ops IH]; intros (op & Hin & Hocc); [destruct Hin|].
  destruct (occurs_dec o s) as [Ho|Ho].
  - exists o, [], ops. auto.
  - destruct IH as (op' & before & after & -> & Hocc' & Hnone).
    { destruct Hin as [->|Hin]; [contradiction | eauto]. }
    exists op', (o :: before), after. auto.
Qed.

Lemma first_operator_In (ops : list string) (s op : string) :
  first_operator ops s op -> In op ops.
Proof. intros (before & after & -> & _). apply in_elt. Qed.

(** An operator is not chosen while a longer one that contains it
    occurs. *)
Lemma first_operator_longest (s op : string) :
  first_operator operators s op ->
  (op = ">" -> ~ occurs ">=" s) /\
  (op = "<" -> ~ occurs "<=" s) /\
  (op = "=" -> ~ occurs ">=" s /\ ~ occurs "<=" s /\ ~ occurs "==" s).
Proof.
  intros (before & after & E & _ & Hnone). unfold operators in E.
  rewrite List.Forall_forall in Hnone.
  repeat (destruct before as [|? before]; cbn [app] in E;
          [ injection E as <- <- | injection E as <- E ];
          try (repeat split; intros; try discriminate;
               apply Hnone; simpl; tauto)).
Qed.

Lemma normalized_operator (op : string) :
  In op operators -> In (normalized op) [">"; "<"; ">="; "<="; "=="].
Proof.
  intros H. repeat (destruct H as [<-|H]; [vm_compute; tauto|]). destruct H.
Qed.

End ParseCondition.

(** C3, as the script behaves.  When an operator occurs, [parse_condition]
    returns, also when the text before or after it is empty once trimmed:
    the empty part is handed on as the empty string; ["price>"] gives
    [("price", ">", "")] and [">500"] gives [("", ">", "500")]. *)
Theorem C3_empty_side_is_returned :
  (forall s op l r,
      first_operator operators s op -> first_occurrence op s l r ->
      PyStr.strip l = "" \/ PyStr.strip r = "" ->
      parse_condition s = Ok (PyStr.strip l, normalized op, PyStr.strip r))
  /\ parse_condition "price>" = Ok ("price", ">", "")
  /\ parse_condition ">500" = Ok ("", ">", "500").
Proof.
  split; [|split; reflexivity].
  intros s op l r Hop Hocc _. now apply parse_condition_loop_first.
Qed.

(** In ["price>"] the operator [>] occurs, what follows its first
    occurrence is empty, and the call returns instead of raising. *)
Lemma C3_counterexample :
  first_operator operators "price>" ">" /\
  first_occurrence ">" "price>" "price" "" /\
  PyStr.strip "" = "" /\
  parse_condition "price>" = Ok ("price", ">", "") /\
  parse_condition "price>" <> Raise (ValueError (MalformedCondition "price>")).
Proof.
  assert (Hocc : first_occurrence ">" "price>" "price" "")
    by (apply split_first_first_occurrence; reflexivity).
  repeat split; try apply Hocc; try discriminate.
  exists [">="; "<="], ["<"; "=="; "="]. split; [reflexivity|]. split.
  - apply contains_occurs. reflexivity.
  - repeat constructor; apply not_contains_occurs; reflexivity.
Qed.

Lemma C3_witness :
  parse_condition " >500" = Ok (PyStr.strip " ", normalized ">", PyStr.strip "500").
Proof.
  apply (proj1 C3_empty_side_is_returned " >500" ">" " " "500").
  - exists [">="; "<="], ["<"; "=="; "="]. split; [reflexivity|]. split.
    + apply contains_occurs. reflexivity.
    + repeat constructor; apply not_contains_occurs; reflexivity.
  - apply split_first_first_occurrence. reflexivity.
  - left. reflexivity.
Defined.

(** C4.  Without any operator in the string [parse_condition] raises its
    [ValueError]; a string with [>>] contains [>], so it is split at the
    first [>] and the call returns: ["price>>500"] gives
    [("price", ">", ">500")]. *)
Theorem C4_no_operator_raises_and_double_gt_parses :
  (forall s, Forall (fun op => ~ occurs op s) operators ->
     parse_condition s = Raise (ValueError (MalformedCondition s)))
  /\ (forall s, occurs ">>" s -> exists t, parse_condition s = Ok t)
  /\ occurs ">>" "price>>500"
  /\ parse_condition "price>>500" = Ok ("price", ">", ">500").
Proof.
  split; [|split; [|split]].
  - intros s H. now apply parse_condition_loop_none.
  - intros s (l & r & ->).
    destruct (first_operator_exists operators (l +:+ ">>" +:+ r)) as [op Hop].
    { exists ">". split; [simpl; tauto|]. now exists l, (">" +:+ r). }
    destruct (occurs_first_occurrence op (l +:+ ">>" +:+ r)) as (l0 & r0 & H0).
    { now destruct Hop as (? & ? & _ & ? & _). }
    eexists. now apply (parse_condition_loop_first _ _ _ _ _ Hop H0).
  - now exists "price", "500".
  - reflexivity.
Qed.

Lemma C4_witness :
  parse_condition "price" = Raise (ValueError (MalformedCondition "price"))
  /\ exists t, parse_condition "a>>b" = Ok t.
Proof.
  split.
  - apply (proj1 C4_no_operator_raises_and_double_gt_parses "price").
    repeat constructor; apply not_contains_occurs; reflexivity.
  - apply (proj1 (proj2 C4_no_operator_raises_and_double_gt_parses) "a>>b").
    apply contains_occurs. reflexivity.
Defined.

(** C5.  When some operator occurs, the operator that decides is the
    first of [>=], [<=], [>], [<], [==], [=] that occurs; the string is
    split at its first occurrence, both sides are trimmed (what is
    returned is each side without its leading and its trailing white
    space), [=] is handed on as [==], and the operator returned is one of
    [>], [<], [>=], [<=], [==].  ["rating>=4.5"] gives
    [("rating", ">=", "4.5")], and so does the same text with blanks, a
    tab or a line end around its parts. *)
Theorem C5_parse_condition_splits_at_first_operator :
  (forall s, (exists op, In op operators /\ occurs op s) ->
     exists op l r,
       first_operator operators s op /\ first_occurrence op s l r /\
       parse_condition s = Ok (PyStr.strip l, normalized op, PyStr.strip r) /\
       trim_of l (PyStr.strip l) /\ trim_of r (PyStr.strip r) /\
       In (normalized op) [">"; "<"; ">="; "<="; "=="])
  /\ (forall s op l r,
        first_operator operators s op -> first_occurrence op s l r ->
        parse_condition s = Ok (PyStr.strip l, normalized op, PyStr.strip r) /\
        trim_of l (PyStr.strip l) /\ trim_of r (PyStr.strip r))
  /\ (forall s op, first_operator operators s op ->
        (op = ">" -> ~ occurs ">=" s) /\
        (op = "<" -> ~ occurs "<=" s) /\
        (op = "=" -> ~ occurs ">=" s /\ ~ occurs "<=" s /\ ~ occurs "==" s))
  /\ operators = [">="; "<="; ">"; "<"; "=="; "="]
  /\ normalized "=" = "=="
  /\ parse_condition "rating>=4.5" = Ok ("rating", ">=", "4.5")
  /\ parse_condition "  rating >= 4.5 " = Ok ("rating", ">=", "4.5")
  /\ parse_condition (String "009" "rating " +:+ ">=" +:+ String "010" "4.5")
     = Ok ("rating", ">=", "4.5")
  /\ parse_condition " unit price =12 " = Ok ("unit price", "==", "12").
Proof.
  split; [|split; [|split; [exact first_operator_longest | repeat split]]].
  - intros s H. destruct (first_operator_exists _ _ H) as [op Hop].
    destruct (occurs_first_occurrence op s) as (l & r & Hlr).
    { now destruct Hop as (? & ? & _ & ? & _). }
    exists op, l, r. split; [exact Hop|]. split; [exact Hlr|].
    split; [now apply parse_condition_loop_first|].
    split; [apply strip_trim_of|]. split; [apply strip_trim_of|].
    apply normalized_operator. eapply first_operator_In, Hop.
  - intros s op l r Hop Hlr.
    split; [now apply parse_condition_loop_first|].
    split; apply strip_trim_of.
Qed.

Lemma C5_witness :
  (exists op l r,
      first_operator operators " a = b " op /\
      first_occurrence op " a = b " l r /\
      parse_condition " a = b "
      = Ok (PyStr.strip l, normalized op, PyStr.strip r) /\
      trim_of l (PyStr.strip l) /\ trim_of r (PyStr.strip r) /\
      In (normalized op) [">"; "<"; ">="; "<="; "=="])
  /\ (parse_condition "  x <= 1 " = Ok ("x", "<=", "1") /\
      trim_of "  x " "x" /\ trim_of " 1 " "1")
  /\ ((">" = ">" -> ~ occurs ">=" "a>b") /\
      (">" = "<" -> ~ occurs "<=" "a>b") /\
      (">" = "=" ->
       ~ occurs ">=" "a>b" /\ ~ occurs "<=" "a>b" /\ ~ occurs "==" "a>b")).
Proof.
  split; [|split].
  - apply (proj1 C5_parse_condition_splits_at_first_operator " a = b ").
    exists "=". split; [simpl; tauto|]. apply contains_occurs. reflexivity.
  - apply (proj1 (proj2 C5_parse_condition_splits_at_first_operator)
             "  x <= 1 " "<=" "  x " " 1 ").
    + exists [">="], [">"; "<"; "=="; "="]. split; [reflexivity|]. split.
      * apply contains_occurs. reflexivity.
      * repeat constructor; apply not_contains_occurs; reflexivity.
    + apply split_first_first_occurrence. reflexivity.
  - apply (proj1 (proj2 (proj2 C5_parse_condition_splits_at_first_operator))
             "a>b" ">").
    exists [">="; "<="], ["<"; "=="; "="]. split; [reflexivity|]. split.
    + apply contains_occurs. reflexivity.
    + repeat constructor; apply not_contains_occurs; reflexivity.
Defined.

(** ** [parse_aggregation] *)

Section ParseAggregation.

Lemma existsb_eqb_In (x : string) (xs : list string) :
  existsb (String.eqb x) xs = true <-> In x xs.
Proof.
  rewrite existsb_exists. split.
  - intros (y & Hin & E). apply String.eqb_eq in E. now subst.
  - intros H. exists x. split; [assumption | apply String.eqb_refl].
Qed.

Lemma parse_aggregation_no_equals (s : string) :
  ~ occurs "=" s ->
  parse_aggregation s = Raise (ValueError (MalformedAggregation s)).
Proof.
  intros H. unfold parse_aggregation.
  apply not_contains_occurs in H. now rewrite H.
Qed.

Lemma parse_aggregation_split (s l r : string) :
  first_occurrence "=" s l r ->
  parse_aggregation s =
  if existsb (String.eqb (PyStr.lower (PyStr.strip l))) supported
  then Ok (PyStr.lower (PyStr.strip l), PyStr.strip r)
  else Raise (ValueError (UnsupportedFunction (PyStr.lower (PyStr.strip l)))).
Proof.
  intros H. unfold parse_aggregation.
  assert (Hocc : occurs "=" s) by (destruct H as [-> _]; now exists l, r).
  apply contains_occurs in Hocc. rewrite Hocc.
  rewrite (split1_first_occurrence _ _ _ _ H). cbn [negb].
  fold supported. now destruct (existsb _ supported).
Qed.

(** What [parse_aggregation] returns is a supported function. *)
Lemma parse_aggregation_supported (s func_name column : string) :
  parse_aggregation s = Ok (func_name, column) -> In func_name supported.
Proof.
  unfold parse_aggregation. destruct (PyStr.contains "=" s); [|discriminate].
  cbn [negb]. destruct (PyStr.split1 "=" s) as [|a [|b [|? ?]]]; try discriminate.
  fold supported.
  destruct (existsb _ supported) eqn:E; [|discriminate].
  intros [= <- <-]. now apply existsb_eqb_In.
Qed.

End ParseAggregation.

(** C9.  Without [=] the call raises the malformed-aggregation
    [ValueError]; otherwise the text before the first [=], trimmed and
    lower-cased, is the function name: when it is none of [avg], [min],
    [max] the call raises the unsupported-function [ValueError], else it
    returns that name with the trimmed text after the first [=]. *)
Theorem C9_parse_aggregation :
  (forall s, ~ occurs "=" s ->
     parse_aggregation s = Raise (ValueError (MalformedAggregation s)))
  /\ (forall s l r, first_occurrence "=" s l r ->
        ~ In (PyStr.lower (PyStr.strip l)) supported ->
        parse_aggregation s
        = Raise (ValueError (UnsupportedFunction (PyStr.lower (PyStr.strip l)))))
  /\ (forall s l r, first_occurrence "=" s l r ->
        In (PyStr.lower (PyStr.strip l)) supported ->
        parse_aggregation s = Ok (PyStr.lower (PyStr.strip l), PyStr.strip r))
  /\ parse_aggregation "avg=price" = Ok ("avg", "price")
  /\ parse_aggregation "sum=price" = Raise (ValueError (UnsupportedFunction "sum"))
  /\ parse_aggregation "avg" = Raise (ValueError (MalformedAggregation "avg")).
Proof.
  split; [|split; [|split; [|repeat split]]].
  - exact parse_aggregation_no_equals.
  - intros s l r H Hn. rewrite (parse_aggregation_split _ _ _ H).
    destruct (existsb _ supported) eqn:E; [|reflexivity].
    apply existsb_eqb_In in E. contradiction.
  - intros s l r H Hin. rewrite (parse_aggregation_split _ _ _ H).
    apply existsb_eqb_In in Hin. now rewrite Hin.
Qed.

Lemma C9_witness :
  parse_aggregation "price" = Raise (ValueError (MalformedAggregation "price"))
  /\ parse_aggregation " Sum = price"
     = Raise (ValueError (UnsupportedFunction (PyStr.lower (PyStr.strip " Sum "))))
  /\ parse_aggregation " MAX = price=x "
     = Ok (PyStr.lower (PyStr.strip " MAX "), PyStr.strip " price=x ").
Proof.
  split; [|split].
  - apply (proj1 C9_parse_aggregation "price").
    apply not_contains_occurs. reflexivity.
  - apply (proj1 (proj2 C9_parse_aggregation) " Sum = price" " Sum " " price").
    + apply split_first_first_occurrence. reflexivity.
    + vm_compute. intros [H|[H|[H|[]]]]; discriminate H.
  - apply (proj1 (proj2 (proj2 C9_parse_aggregation))
             " MAX = price=x " " MAX " " price=x ").
    + apply split_first_first_occurrence. reflexivity.
    + vm_compute. tauto.
Defined.

(** ** Comparisons *)

Section FloatOrder.

Lemma compare_cont_Eq (m n : positive) :
  Pos.compare_cont Eq m n = Pos.compare m n.
Proof. reflexivity. Qed.

Ltac cmp_cases :=
  repeat first
    [ rewrite compare_cont_Eq
    | match goal with
      | |- context [Z.compare ?a ?b] => destruct (Z.compare_spec a b)
      | |- context [Pos.compare ?a ?b] => destruct (Pos.compare_spec a b)
      end ];
  cbn [CompOpp option_map]; intros; subst;
  try discriminate; try reflexivity; try lia.

Ltac float_cases x := destruct x as [[|]|[|]| |[|] ? ?].

Lemma SFcompare_antisym (x y : PyFloat.float) :
  SFcompare y x = option_map CompOpp (SFcompare x y).
Proof. float_cases x; float_cases y; cbn [SFcompare]; cmp_cases. Qed.

Lemma lt_irrefl (x : PyFloat.float) : PyFloat.lt x x = false.
Proof.
  unfold PyFloat.lt, SFltb. float_cases x; cbn [SFcompare]; try reflexivity;
    rewrite Z.compare_refl, compare_cont_Eq, Pos.compare_refl; reflexivity.
Qed.

Lemma lt_trans (x y z : PyFloat.float) :
  PyFloat.lt x y = true -> PyFloat.lt y z = true -> PyFloat.lt x z = true.
Proof.
  unfold PyFloat.lt, SFltb.
  float_cases x; float_cases y; float_cases z; cbn [SFcompare];
    try discriminate; try reflexivity; cmp_cases.
Qed.

Lemma le_of_not_lt (x y : PyFloat.float) :
  PyFloat.is_nan x = false -> PyFloat.is_nan y = false ->
  PyFloat.lt x y = false -> PyFloat.le y x = true.
Proof.
  unfold PyFloat.lt, PyFloat.le, SFltb, SFleb.
  float_cases x; float_cases y; cbn [SFcompare PyFloat.is_nan];
    try discriminate; try reflexivity; cmp_cases.
Qed.

Lemma gt_irrefl (x : PyFloat.float) : PyFloat.gt x x = false.
Proof. apply lt_irrefl. Qed.

Lemma gt_trans (x y z : PyFloat.float) :
  PyFloat.gt x y = true -> PyFloat.gt y z = true -> PyFloat.gt x z = true.
Proof. unfold PyFloat.gt. intros H1 H2. exact (lt_trans _ _ _ H2 H1). Qed.

End FloatOrder.

(** ** [min] and [max] *)

Section Extremum.

(** [beats item best]: the test that replaces the element kept so far. *)
Variable beats : PyFloat.float -> PyFloat.float -> bool.
Hypothesis beats_irrefl : forall x, beats x x = false.
Hypothesis beats_trans :
  forall x y z, beats x y = true -> beats y z = true -> beats x z = true.

(** The element kept is one of the list and none of the list beats it. *)
Lemma keep_best_spec (first : PyFloat.float) (others : list PyFloat.float) :
  In (keep_best beats first others) (first :: others) /\
  (keep_best beats first others = first \/ beats (keep_best beats first others) first = true) /\
  Forall (fun x => beats x (keep_best beats first others) = false) (first :: others).
Proof.
  revert first. induction others as [|item rest IH]; intros first.
  - cbn. repeat split; auto.
  - unfold keep_best. cbn [fold_left].
    set (best := if beats item first then item else first).
    fold (keep_best beats best rest).
    destruct (IH best) as (Hin & Hle & Hall).
    set (m := keep_best beats best rest) in *.
    apply Forall_cons_iff in Hall as [Hbest Hrest].
    assert (Hfirst : m = first \/ beats m first = true).
    { subst best. destruct (beats item first) eqn:E; [|exact Hle].
      right. destruct Hle as [->|Hle]; [exact E | eauto]. }
    assert (Hnf : beats first m = false).
    { destruct Hfirst as [->|Hf]; [apply beats_irrefl|].
      destruct (beats first m) eqn:E; [|reflexivity].
      rewrite <- (beats_irrefl m). symmetry. eauto. }
    assert (Hni : beats item m = false).
    { subst best. destruct (beats item first) eqn:E; [exact Hbest|].
      destruct (beats item m) eqn:E'; [|reflexivity].
      destruct Hfirst as [Hf|Hf]; [congruence|].
      rewrite <- E. symmetry. eauto. }
    split; [|split; [exact Hfirst|]].
    + destruct Hin as [Hin|Hin]; [|right; right; exact Hin].
      subst best. rewrite <- Hin.
      destruct (beats item first); [right; left | left]; reflexivity.
    + constructor; [exact Hnf|]. constructor; [exact Hni | exact Hrest].
Qed.

End Extremum.

Section MinMax.

Lemma min_spec (first : PyFloat.float) (others : list PyFloat.float) :
  In (PyFloat.min first others) (first :: others) /\
  Forall (fun x => PyFloat.lt x (PyFloat.min first others) = false)
    (first :: others).
Proof.
  destruct (keep_best_spec PyFloat.lt lt_irrefl lt_trans first others)
    as (H1 & _ & H2). split; assumption.
Qed.

Lemma max_spec (first : PyFloat.float) (others : list PyFloat.float) :
  In (PyFloat.max first others) (first :: others) /\
  Forall (fun x => PyFloat.gt x (PyFloat.max first others) = false)
    (first :: others).
Proof.
  destruct (keep_best_spec PyFloat.gt gt_irrefl gt_trans first others)
    as (H1 & _ & H2). split; assumption.
Qed.

(** Without NaN, no smaller element means a lower bound. *)
Lemma no_smaller_lower_bound (m : PyFloat.float) (vs : list PyFloat.float) :
  In m vs -> Forall (fun x => PyFloat.is_nan x = false) vs ->
  Forall (fun x => PyFloat.lt x m = false) vs ->
  Forall (fun x => PyFloat.le m x = true) vs.
Proof.
  intros Hin Hnan Hall. rewrite !List.Forall_forall in *.
  intros x Hx. apply le_of_not_lt;
    [exact (Hnan x Hx) | exact (Hnan m Hin) | exact (Hall x Hx)].
Qed.

Lemma no_greater_upper_bound (m : PyFloat.float) (vs : list PyFloat.float) :
  In m vs -> Forall (fun x => PyFloat.is_nan x = false) vs ->
  Forall (fun x => PyFloat.gt x m = false) vs ->
  Forall (fun x => PyFloat.ge m x = true) vs.
Proof.
  intros Hin Hnan Hall. rewrite !List.Forall_forall in *.
  intros x Hx. unfold PyFloat.ge. apply le_of_not_lt;
    [exact (Hnan m Hin) | exact (Hnan x Hx) | exact (Hall x Hx)].
Qed.

End MinMax.

(** ** The loop bodies *)

Section Engines.

Lemma str_compare_refl (a : string) : String.compare a a = Eq.
Proof.
  induction a as [|c a IH]; [reflexivity|]. cbn [String.compare].
  unfold Ascii.compare. now rewrite N.compare_refl.
Qed.

Lemma str_eqb_compare (a b : string) :
  String.eqb a b = match String.compare a b with Eq => true | _ => false end.
Proof.
  destruct (String.compare a b) eqn:C.
  - apply String.compare_eq_iff in C. subst. apply String.eqb_refl.
  - apply String.eqb_neq. intros ->. rewrite str_compare_refl in C. discriminate.
  - apply String.eqb_neq. intros ->. rewrite str_compare_refl in C. discriminate.
Qed.

(** On a numeric cell, against a numeric value, the chain of tests of
    [apply_filter] decides [holds_float]. *)
Lemma filter_row_float (column operator cell : string) (x y : PyFloat.float)
  (r : row) :
  r !! column = Some cell -> PyFloat.of_string cell = Some x ->
  filter_row column operator (VFloat y) r = Ok (holds_float operator x y).
Proof.
  intros Hcell Hx. unfold filter_row, getitem. rewrite Hcell. cbn [bind].
  rewrite Hx. cbn [bind py_gt py_lt py_ge py_le py_eq].
  unfold holds_float, PyFloat.gt, PyFloat.lt, PyFloat.ge, PyFloat.le,
    PyFloat.eq, SFltb, SFleb, SFeqb.
  rewrite (SFcompare_antisym x y).
  destruct (SFcompare x y) as [[| |]|]; cbn [option_map CompOpp holds];
    destruct (String.eqb operator ">"), (String.eqb operator "<"),
      (String.eqb operator ">="), (String.eqb operator "<="),
      (String.eqb operator "=="); reflexivity.
Qed.

(** Against a text, the cell is compared as a text. *)
Lemma filter_row_str (column operator cell value_str : string) (r : row) :
  r !! column = Some cell ->
  filter_row column operator (VStr value_str) r
  = Ok (holds_str operator cell value_str).
Proof.
  intros Hcell. unfold filter_row, getitem. rewrite Hcell.
  cbn [bind py_gt py_lt py_ge py_le py_eq].
  unfold holds_str, PyStr.gt, PyStr.lt, PyStr.ge, PyStr.le, PyStr.eq,
    String.ltb, String.leb.
  rewrite (str_eqb_compare cell value_str),
    (String.compare_antisym value_str cell).
  destruct (String.compare cell value_str); cbn [CompOpp holds];
    destruct (String.eqb operator ">"), (String.eqb operator "<"),
      (String.eqb operator ">="), (String.eqb operator "<="),
      (String.eqb operator "=="); reflexivity.
Qed.

(** A numeric value against a cell that is no number: the call exits. *)
Lemma filter_row_non_numeric (column operator cell : string)
  (y : PyFloat.float) (r : row) :
  r !! column = Some cell -> PyFloat.of_string cell = None ->
  filter_row column operator (VFloat y) r
  = Raise (SystemExit (NonNumericCell cell column)).
Proof.
  intros Hcell Hx. unfold filter_row, getitem. rewrite Hcell. cbn [bind].
  rewrite Hx. reflexivity.
Qed.

Lemma filter_row_comparable (column operator value_str : string) (r : row) :
  comparable column value_str r ->
  filter_row column operator (coerce_value value_str) r
  = Ok (satisfies column operator value_str r).
Proof.
  intros (cell & Hcell & Hnum). unfold satisfies, coerce_value.
  rewrite Hcell. destruct (PyFloat.of_string value_str) as [y|].
  - destruct (PyFloat.of_string cell) as [x|] eqn:Hx.
    + now apply (filter_row_float column operator cell).
    + exfalso. now apply Hnum.
  - now apply filter_row_str.
Qed.

(** The loop appends, in order, the rows on which the body answers
    [True]. *)
Lemma filter_loop_filter (column operator : string) (v : value)
  (keep : row -> bool) (data filtered_data : list row) :
  Forall (fun r => filter_row column operator v r = Ok (keep r)) data ->
  filter_loop column operator v data filtered_data
  = Ok (filtered_data ++ List.filter keep data).
Proof.
  intros H. revert filtered_data.
  induction H as [|r data Hr _ IH]; intros filtered_data; cbn [filter_loop List.filter].
  - now rewrite app_nil_r.
  - rewrite Hr. cbn [bind]. rewrite IH.
    destruct (keep r); [now rewrite <- app_assoc | reflexivity].
Qed.

(** The loop stops at the first row on which the body raises. *)
Lemma filter_loop_raise (column operator : string) (v : value) (e : exc)
  (before : list row) (bad : row) (after filtered_data : list row) :
  Forall (fun r => exists b, filter_row column operator v r = Ok b) before ->
  filter_row column operator v bad = Raise e ->
  filter_loop column operator v (before ++ bad :: after) filtered_data
  = Raise e.
Proof.
  intros H Hbad. revert filtered_data.
  induction H as [|r before [b Hr] _ IH]; intros filtered_data;
    cbn [app filter_loop].
  - now rewrite Hbad.
  - rewrite Hr. cbn [bind]. apply IH.
Qed.

Lemma values_loop_values (column : string) (data : list row)
  (vs values : list PyFloat.float) :
  Forall2 (numeric_cell column) data vs ->
  values_loop column data values = Ok (values ++ vs).
Proof.
  intros H. revert values.
  induction H as [|r x data vs (cell & Hcell & Hx) _ IH]; intros values;
    cbn [values_loop].
  - now rewrite app_nil_r.
  - unfold getitem. rewrite Hcell. cbn [bind]. rewrite Hx, IH.
    now rewrite <- app_assoc.
Qed.

Lemma values_loop_raise (column cell : string) (before : list row)
  (bad : row) (after : list row) (values : list PyFloat.float) :
  Forall (fun r => exists x, numeric_cell column r x) before ->
  bad !! column = Some cell -> PyFloat.of_string cell = None ->
  values_loop column (before ++ bad :: after) values
  = Raise (SystemExit (NonNumericColumn cell column)).
Proof.
  intros H Hcell Hbad. revert values.
  induction H as [|r before (x & c & Hc & Hx) _ IH]; intros values;
    cbn [app values_loop]; unfold getitem.
  - rewrite Hcell. cbn [bind]. now rewrite Hbad.
  - rewrite Hc. cbn [bind]. rewrite Hx. apply IH.
Qed.

(** The two engines once the expression is parsed and the column found
    in the first row. *)
Lemma apply_filter_parsed (r0 : row) (rest : list row)
  (condition_str column operator value_str : string) :
  parse_condition condition_str = Ok (column, operator, value_str) ->
  apply_filter (r0 :: rest) condition_str =
  if has_key column r0
  then filter_loop column operator (coerce_value value_str) (r0 :: rest) []
  else Raise (SystemExit (UnknownColumn column)).
Proof.
  intros H. unfold apply_filter. rewrite H.
  cbn [exit_on_ValueError bind first_row]. now destruct (has_key column r0).
Qed.

Lemma apply_aggregation_parsed (r0 : row) (rest : list row)
  (aggregation_str func_name column : string) :
  parse_aggregation aggregation_str = Ok (func_name, column) ->
  apply_aggregation (r0 :: rest) aggregation_str =
  if has_key column r0
  then
    let* values := values_loop column (r0 :: rest) [] in
    match values with
    | [] => Ok PyFloat.zero
    | first :: others =>
        if String.eqb func_name "avg" then
          PyFloat.truediv_int (PyFloat.sum values) (Z.of_nat (length values))
        else if String.eqb func_name "min" then Ok (PyFloat.min first others)
        else if String.eqb func_name "max" then Ok (PyFloat.max first others)
        else Ok PyFloat.zero
    end
  else Raise (SystemExit (UnknownColumn column)).
Proof.
  intros H. unfold apply_aggregation. rewrite H.
  cbn [exit_on_ValueError bind first_row]. now destruct (has_key column r0).
Qed.

Lemma has_key_Some (column cell : string) (r : row) :
  r !! column = Some cell -> has_key column r = true.
Proof. intros H. unfold has_key. now rewrite H. Qed.

Lemma has_key_None (column : string) (r : row) :
  r !! column = None -> has_key column r = false.
Proof. intros H. unfold has_key. now rewrite H. Qed.

End Engines.

(** ** [apply_aggregation] on the empty dataset *)

(** C1, as the script behaves.  On the empty dataset the test
    [column not in data[0]] raises [IndexError] before the guard for an
    empty list of values is reached: no call on the empty dataset
    returns, whatever the aggregation. *)
Theorem C1_empty_dataset_raises :
  (forall aggregation_str,
     exists e, apply_aggregation [] aggregation_str = Raise e)
  /\ apply_aggregation [] "avg=price" = Raise IndexError
  /\ apply_aggregation [] "min=price" = Raise IndexError
  /\ apply_aggregation [] "max=price" = Raise IndexError.
Proof.
  split; [|repeat split].
  intros s. unfold apply_aggregation.
  destruct (parse_aggregation s) as [[f c]|[]]; cbn; eauto.
Qed.

(** ** Unknown columns *)

(** C10.  On a non-empty dataset both engines exit with the
    unknown-column message when the column of the parsed expression is
    no key of the first row; the other rows are not looked at: a column
    that only a later row has is unknown, and a column that only the
    first row has passes the test. *)
Theorem C10_unknown_column :
  (forall (r0 : row) rest condition_str column operator value_str,
      parse_condition condition_str = Ok (column, operator, value_str) ->
      r0 !! column = None ->
      apply_filter (r0 :: rest) condition_str
      = Raise (SystemExit (UnknownColumn column)))
  /\ (forall (r0 : row) rest aggregation_str func_name column,
        parse_aggregation aggregation_str = Ok (func_name, column) ->
        r0 !! column = None ->
        apply_aggregation (r0 :: rest) aggregation_str
        = Raise (SystemExit (UnknownColumn column)))
  /\ apply_filter sample_data "invalid>500"
     = Raise (SystemExit (UnknownColumn "invalid"))
  /\ apply_aggregation sample_data "avg=invalid"
     = Raise (SystemExit (UnknownColumn "invalid"))
  /\ apply_filter first_row_only "b>0" = Raise (SystemExit (UnknownColumn "b"))
  /\ apply_filter first_row_only "a>0" = Raise (KeyError "a").
Proof.
  split; [|split; [|repeat split; vm_compute; reflexivity]].
  - intros r0 rest s column operator value_str Hp Hr.
    rewrite (apply_filter_parsed _ _ _ _ _ _ Hp).
    now rewrite (has_key_None _ _ Hr).
  - intros r0 rest s func_name column Hp Hr.
    rewrite (apply_aggregation_parsed _ _ _ _ _ Hp).
    now rewrite (has_key_None _ _ Hr).
Qed.

Lemma C10_witness :
  apply_filter first_row_only "c < 3" = Raise (SystemExit (UnknownColumn "c"))
  /\ apply_aggregation first_row_only "max=c"
     = Raise (SystemExit (UnknownColumn "c")).
Proof.
  split.
  - apply (proj1 C10_unknown_column _ _ "c < 3" "c" "<" "3"); reflexivity.
  - apply (proj1 (proj2 C10_unknown_column) _ _ "max=c" "max" "c"); reflexivity.
Defined.

(** ** Cells that are no numbers *)

(** C8.  When the comparison value is numeric and the rows before some
    row have numeric cells while that row has not, [apply_filter] exits
    with the message for that cell, whatever follows; so does
    [apply_aggregation].  Nothing is returned. *)
Theorem C8_first_non_numeric_cell_is_fatal :
  (forall before (bad : row) after condition_str column operator value_str y cell,
      parse_condition condition_str = Ok (column, operator, value_str) ->
      PyFloat.of_string value_str = Some y ->
      Forall (fun r => exists x, numeric_cell column r x) before ->
      bad !! column = Some cell -> PyFloat.of_string cell = None ->
      apply_filter (before ++ bad :: after) condition_str
      = Raise (SystemExit (NonNumericCell cell column)))
  /\ (forall before (bad : row) after aggregation_str func_name column cell,
        parse_aggregation aggregation_str = Ok (func_name, column) ->
        Forall (fun r => exists x, numeric_cell column r x) before ->
        bad !! column = Some cell -> PyFloat.of_string cell = None ->
        apply_aggregation (before ++ bad :: after) aggregation_str
        = Raise (SystemExit (NonNumericColumn cell column)))
  /\ apply_aggregation sample_data "avg=name"
     = Raise (SystemExit (NonNumericColumn "iphone 15 pro" "name")).
Proof.
  split; [|split].
  - intros before bad after s column operator value_str y cell Hp Hy Hb Hc Hn.
    assert (Hloop : forall acc,
      filter_loop column operator (VFloat y) (before ++ bad :: after) acc
      = Raise (SystemExit (NonNumericCell cell column))).
    { intros acc. apply filter_loop_raise.
      - eapply List.Forall_impl; [|exact Hb].
        intros r (x & c & Hrc & Hx). eexists.
        now apply (filter_row_float column operator c x y).
      - now apply filter_row_non_numeric. }
    assert (Hkey : exists r0 rest, before ++ bad :: after = r0 :: rest
                                   /\ has_key column r0 = true).
    { destruct before as [|r before]; cbn [app].
      - exists bad, after. split; [reflexivity | now apply (has_key_Some _ cell)].
      - exists r, (before ++ bad :: after). split; [reflexivity|].
        apply Forall_inv in Hb. destruct Hb as (x & c & Hrc & _).
        now apply (has_key_Some _ c). }
    destruct Hkey as (r0 & rest & E & Hk). rewrite E in *.
    rewrite (apply_filter_parsed _ _ _ _ _ _ Hp), Hk.
    unfold coerce_value. rewrite Hy. apply Hloop.
  - intros before bad after s func_name column cell Hp Hb Hc Hn.
    pose proof (values_loop_raise column cell before bad after [] Hb Hc Hn) as Hloop.
    assert (Hkey : exists r0 rest, before ++ bad :: after = r0 :: rest
                                   /\ has_key column r0 = true).
    { destruct before as [|r before]; cbn [app].
      - exists bad, after. split; [reflexivity | now apply (has_key_Some _ cell)].
      - exists r, (before ++ bad :: after). split; [reflexivity|].
        apply Forall_inv in Hb. destruct Hb as (x & c & Hrc & _).
        now apply (has_key_Some _ c). }
    destruct Hkey as (r0 & rest & E & Hk). rewrite E in *.
    rewrite (apply_aggregation_parsed _ _ _ _ _ Hp), Hk, Hloop. reflexivity.
  - vm_compute. reflexivity.
Qed.

Lemma C8_witness :
  apply_filter second_price_bad "price>5"
  = Raise (SystemExit (NonNumericCell "n/a" "price"))
  /\ apply_aggregation second_price_bad "min=price"
     = Raise (SystemExit (NonNumericColumn "n/a" "price")).
Proof.
  split.
  - apply (proj1 C8_first_non_numeric_cell_is_fatal
             [ {[ "price" := "10" ]} ] {[ "price" := "n/a" ]}
             [ {[ "price" := "oops" ]} ] "price>5" "price" ">" "5"
             (PyFloat.of_Z 5) "n/a"); try reflexivity.
    constructor; [|constructor].
    exists (PyFloat.of_Z 10), "10". split; reflexivity.
  - apply (proj1 (proj2 C8_first_non_numeric_cell_is_fatal)
             [ {[ "price" := "10" ]} ] {[ "price" := "n/a" ]}
             [ {[ "price" := "oops" ]} ] "min=price" "min" "price" "n/a");
      try reflexivity.
    constructor; [|constructor].
    exists (PyFloat.of_Z 10), "10". split; reflexivity.
Defined.

(** ** [apply_filter] *)

Section Filter.

Lemma filter_all {A : Type} (f : A -> bool) (l : list A) :
  Forall (fun a => f a = true) l -> List.filter f l = l.
Proof.
  induction 1 as [|a l Ha _ IH]; cbn [List.filter]; [reflexivity|].
  now rewrite Ha, IH.
Qed.

(** On rows that can be compared with the value, the call returns the
    rows that satisfy the condition, in order. *)
Lemma apply_filter_comparable (data : list row)
  (condition_str column operator value_str : string) :
  data <> [] ->
  parse_condition condition_str = Ok (column, operator, value_str) ->
  Forall (comparable column value_str) data ->
  apply_filter data condition_str
  = Ok (List.filter (satisfies column operator value_str) data).
Proof.
  intros Hne Hp Hall. destruct data as [|r0 rest]; [contradiction|].
  rewrite (apply_filter_parsed _ _ _ _ _ _ Hp).
  pose proof (Forall_inv Hall) as (cell & Hcell & _).
  rewrite (has_key_Some _ _ _ Hcell).
  apply (filter_loop_filter _ _ _ (satisfies column operator value_str)).
  eapply List.Forall_impl; [|exact Hall].
  intros r Hr. now apply filter_row_comparable.
Qed.

(** A row that satisfies the condition can be compared with its value. *)
Lemma satisfies_comparable (column operator value_str : string) (r : row) :
  satisfies column operator value_str r = true ->
  comparable column value_str r.
Proof.
  unfold satisfies, comparable. destruct (r !! column) as [cell|];
    [|discriminate].
  intros H. exists cell. split; [reflexivity|].
  destruct (PyFloat.of_string value_str); [|congruence].
  destruct (PyFloat.of_string cell); [congruence | discriminate].
Qed.

End Filter.

(** C6, as the script behaves.  On a non-empty dataset whose rows all
    have the column of the condition and, when the comparison value is
    numeric, a numeric cell under it, [apply_filter] returns exactly the
    rows that satisfy the condition, in their original order; when all
    rows of a non-empty dataset satisfy it, the result is the dataset
    itself.  Numbers are compared as numbers, texts as texts. *)
Theorem C6_filter_keeps_satisfying_rows_in_order :
  (forall data condition_str column operator value_str,
      data <> [] ->
      parse_condition condition_str = Ok (column, operator, value_str) ->
      Forall (comparable column value_str) data ->
      apply_filter data condition_str
      = Ok (List.filter (satisfies column operator value_str) data))
  /\ (forall data condition_str column operator value_str,
        data <> [] ->
        parse_condition condition_str = Ok (column, operator, value_str) ->
        Forall (fun r => satisfies column operator value_str r = true) data ->
        apply_filter data condition_str = Ok data)
  /\ apply_filter sample_data "price>500" = Ok (firstn 2 sample_data)
  /\ apply_filter sample_data "price>100" = Ok sample_data.
Proof.
  split; [|split; [|split]].
  - exact apply_filter_comparable.
  - intros data s column operator value_str Hne Hp Hsat.
    rewrite (apply_filter_comparable _ _ _ _ _ Hne Hp).
    + now rewrite filter_all.
    + eapply List.Forall_impl; [|exact Hsat].
      intros r. apply satisfies_comparable.
  - vm_cast_no_check (eq_refl (Ok (firstn 2 sample_data))).
  - vm_cast_no_check (eq_refl (Ok sample_data)).
Qed.

(** The dataset is not empty, the column is a key of its row, and the
    call exits instead of returning rows. *)
Lemma C6_counterexample :
  non_numeric_price <> [] /\
  parse_condition "price>500" = Ok ("price", ">", "500") /\
  Forall (fun r => has_key "price" r = true) non_numeric_price /\
  apply_filter non_numeric_price "price>500"
  = Raise (SystemExit (NonNumericCell "abc" "price")) /\
  ~ (exists rows, apply_filter non_numeric_price "price>500" = Ok rows).
Proof.
  assert (H : apply_filter non_numeric_price "price>500"
              = Raise (SystemExit (NonNumericCell "abc" "price")))
    by (vm_compute; reflexivity).
  repeat split; try discriminate; try exact H.
  - repeat constructor.
  - intros [rows E]. rewrite H in E. discriminate.
Qed.

Lemma C6_witness :
  apply_filter two_prices "price>500"
  = Ok (List.filter (satisfies "price" ">" "500") two_prices)
  /\ apply_filter two_prices "price>500" = Ok two_prices.
Proof.
  assert (Hc : Forall (comparable "price" "500") two_prices).
  { constructor; [|constructor; [|constructor]].
    - exists "600". split; [reflexivity | vm_compute; discriminate].
    - exists "700". split; [reflexivity | vm_compute; discriminate]. }
  split.
  - apply (proj1 C6_filter_keeps_satisfying_rows_in_order
             two_prices "price>500" "price" ">" "500");
      [discriminate | reflexivity | exact Hc].
  - apply (proj1 (proj2 C6_filter_keeps_satisfying_rows_in_order)
             two_prices "price>500" "price" ">" "500");
      [discriminate | reflexivity |].
    constructor; [|constructor; [|constructor]]; vm_compute; reflexivity.
Defined.

(** C2, as the script behaves.  When the comparison value is no number,
    the cells are compared with it as texts, code point by code point,
    also under [>], [<], [>=] and [<=]: on a non-empty dataset whose rows
    all have the column the call returns, without an error, the rows
    whose cell stands in that order to the value. *)
Theorem C2_text_value_is_compared_as_text :
  (forall data condition_str column operator value_str,
      data <> [] ->
      parse_condition condition_str = Ok (column, operator, value_str) ->
      In operator [">"; "<"; ">="; "<="] ->
      PyFloat.of_string value_str = None ->
      Forall (fun r : row => exists cell, r !! column = Some cell) data ->
      apply_filter data condition_str
      = Ok (List.filter
              (fun r : row =>
                 match r !! column with
                 | Some cell => holds_str operator cell value_str
                 | None => false
                 end) data))
  /\ (forall a b,
        holds_str ">" a b = (if String.compare a b is Gt then true else false) /\
        holds_str "<" a b = (if String.compare a b is Lt then true else false) /\
        holds_str ">=" a b = (if String.compare a b is Lt then false else true) /\
        holds_str "<=" a b = (if String.compare a b is Gt then false else true))
  /\ apply_filter sample_data "brand>b" = Ok (skipn 1 sample_data).
Proof.
  split; [|split].
  - intros data s column operator value_str Hne Hp _ Hv Hall.
    rewrite (apply_filter_comparable data s column operator value_str Hne Hp).
    + f_equal. apply filter_ext. intros r. unfold satisfies. now rewrite Hv.
    + eapply List.Forall_impl; [|exact Hall].
      intros r (cell & Hcell). exists cell. split; [exact Hcell|].
      intros Hnum. now rewrite Hv in Hnum.
  - intros a b. unfold holds_str, holds.
    destruct (String.compare a b); repeat split; reflexivity.
  - vm_cast_no_check (eq_refl (Ok (skipn 1 sample_data))).
Qed.

(** The value [a] is no number, the operator is [>], and the row is
    returned. *)
Lemma C2_counterexample :
  PyFloat.of_string "a" = None /\
  parse_condition "name>a" = Ok ("name", ">", "a") /\
  apply_filter one_name "name>a" = Ok one_name /\
  apply_filter one_name "name>a" <> Ok [].
Proof.
  assert (H : apply_filter one_name "name>a" = Ok one_name)
    by (vm_compute; reflexivity).
  repeat split; try exact H. rewrite H. discriminate.
Qed.

Lemma C2_witness :
  apply_filter one_name "name<=c"
  = Ok (List.filter
          (fun r : row =>
             match r !! "name" with
             | Some cell => holds_str "<=" cell "c"
             | None => false
             end) one_name).
Proof.
  apply (proj1 C2_text_value_is_compared_as_text
           one_name "name<=c" "name" "<=" "c").
  - discriminate.
  - reflexivity.
  - simpl. tauto.
  - reflexivity.
  - constructor; [|constructor]. exists "b". reflexivity.
Defined.

(** ** [apply_aggregation] *)

Section Aggregation.

Lemma apply_aggregation_numeric (data : list row) (vs : list PyFloat.float)
  (aggregation_str func_name column : string) :
  data <> [] ->
  parse_aggregation aggregation_str = Ok (func_name, column) ->
  Forall2 (numeric_cell column) data vs ->
  exists first others,
    vs = first :: others /\
    apply_aggregation data aggregation_str =
    if String.eqb func_name "avg" then Ok (arithmetic_mean vs)
    else if String.eqb func_name "min" then Ok (PyFloat.min first others)
    else if String.eqb func_name "max" then Ok (PyFloat.max first others)
    else Ok PyFloat.zero.
Proof.
  intros Hne Hp Hall. destruct Hall as [|r0 first rest others H0 Hrest];
    [contradiction|].
  exists first, others. split; [reflexivity|].
  rewrite (apply_aggregation_parsed _ _ _ _ _ Hp).
  destruct H0 as (cell & Hcell & Hx).
  rewrite (has_key_Some _ _ _ Hcell).
  rewrite (values_loop_values column (r0 :: rest) (first :: others) []).
  - cbn [bind app]. unfold PyFloat.truediv_int, arithmetic_mean.
    cbn [length]. now rewrite Nat2Z.inj_succ, (proj2 (Z.eqb_neq _ 0)) by lia.
  - constructor; [now exists cell | exact Hrest].
Qed.

End Aggregation.

(** C7.  On a non-empty dataset whose cells under the column all parse
    as numbers, [avg] returns the arithmetic mean of the parsed values,
    [min] one of them that none is smaller than and [max] one that none
    is greater than; these are a lower and an upper bound of all the
    values when none of them is a NaN.  Over the prices 999, 1199, 199
    and 299, [avg] gives 674.0 and [max] gives 1199.0. *)
Theorem C7_aggregates_over_numeric_column :
  (forall data vs aggregation_str column,
      data <> [] -> Forall2 (numeric_cell column) data vs ->
      (parse_aggregation aggregation_str = Ok ("avg", column) ->
       apply_aggregation data aggregation_str = Ok (arithmetic_mean vs))
      /\ (parse_aggregation aggregation_str = Ok ("min", column) ->
          exists m, apply_aggregation data aggregation_str = Ok m /\
            In m vs /\ Forall (fun x => PyFloat.lt x m = false) vs /\
            (Forall (fun x => PyFloat.is_nan x = false) vs ->
             Forall (fun x => PyFloat.le m x = true) vs))
      /\ (parse_aggregation aggregation_str = Ok ("max", column) ->
          exists m, apply_aggregation data aggregation_str = Ok m /\
            In m vs /\ Forall (fun x => PyFloat.gt x m = false) vs /\
            (Forall (fun x => PyFloat.is_nan x = false) vs ->
             Forall (fun x => PyFloat.ge m x = true) vs)))
  /\ Forall2 (numeric_cell "price") sample_data
       [PyFloat.of_Z 999; PyFloat.of_Z 1199; PyFloat.of_Z 199; PyFloat.of_Z 299]
  /\ apply_aggregation sample_data "avg=price" = Ok (PyFloat.of_Z 674)
  /\ apply_aggregation sample_data "max=price" = Ok (PyFloat.of_Z 1199)
  /\ PyFloat.of_string "674.0" = Some (PyFloat.of_Z 674)
  /\ PyFloat.of_string "1199.0" = Some (PyFloat.of_Z 1199).
Proof.
  split; [|split; [|split; [|split; [|split]]]];
    [| | vm_compute; reflexivity ..].
  - intros data vs s column Hne Hall. split; [|split]; intros Hp;
      destruct (apply_aggregation_numeric _ _ _ _ _ Hne Hp Hall)
        as (first & others & -> & E); cbn in E.
    + exact E.
    + exists (PyFloat.min first others). split; [exact E|].
      destruct (min_spec first others) as [Hin Hmin].
      split; [exact Hin|]. split; [exact Hmin|].
      intros Hnan. now apply no_smaller_lower_bound.
    + exists (PyFloat.max first others). split; [exact E|].
      destruct (max_spec first others) as [Hin Hmax].
      split; [exact Hin|]. split; [exact Hmax|].
      intros Hnan. now apply no_greater_upper_bound.
  - unfold sample_data.
    constructor; [exists "999"; split; vm_compute; reflexivity|].
    constructor; [exists "1199"; split; vm_compute; reflexivity|].
    constructor; [exists "199"; split; vm_compute; reflexivity|].
    constructor; [exists "299"; split; vm_compute; reflexivity|].
    constructor.
Qed.

Lemma C7_witness :
  apply_aggregation two_prices "avg=price"
  = Ok (arithmetic_mean [PyFloat.of_Z 600; PyFloat.of_Z 700])
  /\ (exists m, apply_aggregation two_prices "min=price" = Ok m /\
        In m [PyFloat.of_Z 600; PyFloat.of_Z 700] /\
        Forall (fun x => PyFloat.lt x m = false)
          [PyFloat.of_Z 600; PyFloat.of_Z 700] /\
        (Forall (fun x => PyFloat.is_nan x = false)
           [PyFloat.of_Z 600; PyFloat.of_Z 700] ->
         Forall (fun x => PyFloat.le m x = true)
           [PyFloat.of_Z 600; PyFloat.of_Z 700]))
  /\ (exists m, apply_aggregation two_prices "max=price" = Ok m /\
        In m [PyFloat.of_Z 600; PyFloat.of_Z 700] /\
        Forall (fun x => PyFloat.gt x m = false)
          [PyFloat.of_Z 600; PyFloat.of_Z 700] /\
        (Forall (fun x => PyFloat.is_nan x = false)
           [PyFloat.of_Z 600; PyFloat.of_Z 700] ->
         Forall (fun x => PyFloat.ge m x = true)
           [PyFloat.of_Z 600; PyFloat.of_Z 700])).
Proof.
  assert (Hne : two_prices <> []) by discriminate.
  assert (Hall : Forall2 (numeric_cell "price") two_prices
                   [PyFloat.of_Z 600; PyFloat.of_Z 700]).
  { constructor; [|constructor; [|constructor]].
    - exists "600". split; reflexivity.
    - exists "700". split; reflexivity. }
  split; [|split].
  - apply (proj1 (proj1 C7_aggregates_over_numeric_column
                    two_prices _ "avg=price" "price" Hne Hall)).
    reflexivity.
  - apply (proj1 (proj2 (proj1 C7_aggregates_over_numeric_column
                    two_prices _ "min=price" "price" Hne Hall))).
    reflexivity.
  - apply (proj2 (proj2 (proj1 C7_aggregates_over_numeric_column
                    two_prices _ "max=price" "price" Hne Hall))).
    reflexivity.
Defined.

(** * Further properties of the script *)

(** ** Trimming *)

Section Trimming.

Variable p : ascii -> bool.

Lemma rstrip_with_cons (c : ascii) (s : string) :
  PyStr.rstrip_with p (String c s) =
  match PyStr.rstrip_with p s with
  | EmptyString => if p c then EmptyString else String c EmptyString
  | t => String c t
  end.
Proof. reflexivity. Qed.

Lemma rstrip_with_idempotent (s : string) :
  PyStr.rstrip_with p (PyStr.rstrip_with p s) = PyStr.rstrip_with p s.
Proof.
  induction s as [|c s IH]; [reflexivity|].
  rewrite rstrip_with_cons.
  destruct (PyStr.rstrip_with p s) as [|d t] eqn:E.
  - destruct (p c) eqn:Pc; [reflexivity|].
    rewrite rstrip_with_cons. cbn [PyStr.rstrip_with]. now rewrite Pc.
  - rewrite rstrip_with_cons, IH. reflexivity.
Qed.

(** A text that does not start with a character of the class still does
    not after the removal of its trailing ones. *)
Lemma lstrip_with_rstrip_with (s : string) :
  PyStr.lstrip_with p s = s ->
  PyStr.lstrip_with p (PyStr.rstrip_with p s) = PyStr.rstrip_with p s.
Proof.
  destruct s as [|c s]; [reflexivity|]. cbn [PyStr.lstrip_with].
  destruct (p c) eqn:Pc.
  - intros H. exfalso.
    assert (Hlen : forall t, String.length (PyStr.lstrip_with p t) <= String.length t).
    { induction t as [|d t IH]; cbn [PyStr.lstrip_with]; [lia|].
      destruct (p d); cbn [String.length]; lia. }
    specialize (Hlen s). rewrite H in Hlen. cbn [String.length] in Hlen. lia.
  - intros _. rewrite rstrip_with_cons.
    destruct (PyStr.rstrip_with p s); rewrite ?Pc; cbn [PyStr.lstrip_with];
      now rewrite Pc.
Qed.

Lemma lstrip_with_idempotent (s : string) :
  PyStr.lstrip_with p (PyStr.lstrip_with p s) = PyStr.lstrip_with p s.
Proof.
  induction s as [|c s IH]; [reflexivity|]. cbn [PyStr.lstrip_with].
  destruct (p c) eqn:Pc; [exact IH|]. cbn [PyStr.lstrip_with]. now rewrite Pc.
Qed.

Lemma strip_with_idempotent (s : string) :
  PyStr.strip_with p (PyStr.strip_with p s) = PyStr.strip_with p s.
Proof.
  unfold PyStr.strip_with.
  rewrite lstrip_with_rstrip_with by apply lstrip_with_idempotent.
  apply rstrip_with_idempotent.
Qed.

End Trimming.

Lemma strip_trimmed (s : string) : trimmed (PyStr.strip s).
Proof. apply strip_with_idempotent. Qed.

(** ** What [parse_condition] returns *)

Lemma parse_condition_loop_inv (ops : list string) (s column operator value_str : string) :
  parse_condition_loop ops s = Ok (column, operator, value_str) ->
  exists op l r,
    In op ops /\ first_occurrence op s l r /\
    column = PyStr.strip l /\ operator = normalized op /\
    value_str = PyStr.strip r.
Proof.
  induction ops as [|o ops IH]; cbn [parse_condition_loop]; [discriminate|].
  intros H.
  assert (Hrec : parse_condition_loop ops s = Ok (column, operator, value_str) ->
                 exists op l r, In op (o :: ops) /\ first_occurrence op s l r /\
                   column = PyStr.strip l /\ operator = normalized op /\
                   value_str = PyStr.strip r).
  { intros H'. destruct (IH H') as (op & l & r & Hin & Hrest).
    exists op, l, r. split; [now right | exact Hrest]. }
  destruct (PyStr.contains o s); [|now apply Hrec].
  unfold PyStr.split1 in H.
  destruct (PyStr.split_first o s) as [[l r]|] eqn:E; [|now apply Hrec].
  injection H as <- <- <-. exists o, l, r.
  split; [now left|]. split; [now apply split_first_first_occurrence|].
  repeat split.
Qed.

(** X1.  Whatever [parse_condition] returns, the column and the value
    have no white space at either end, the operator is one of [>], [<],
    [>=], [<=], [==], and the three come from the two sides of the first
    occurrence of an operator of the list. *)
Theorem X1_parse_condition_result (s column operator value_str : string) :
  parse_condition s = Ok (column, operator, value_str) ->
  trimmed column /\ trimmed value_str /\
  In operator [">"; "<"; ">="; "<="; "=="] /\
  exists op l r,
    In op operators /\ first_occurrence op s l r /\
    column = PyStr.strip l /\ operator = normalized op /\
    value_str = PyStr.strip r.
Proof.
  intros H. destruct (parse_condition_loop_inv _ _ _ _ _ H)
    as (op & l & r & Hin & Hocc & -> & -> & ->).
  split; [apply strip_trimmed|]. split; [apply strip_trimmed|].
  split; [now apply normalized_operator|].
  exists op, l, r. repeat split; try assumption; apply Hocc.
Qed.

Lemma X1_witness :
  trimmed "price" /\ trimmed "500" /\
  In ">=" [">"; "<"; ">="; "<="; "=="] /\
  exists op l r,
    In op operators /\ first_occurrence op " price >= 500 " l r /\
    "price" = PyStr.strip l /\ ">=" = normalized op /\
    "500" = PyStr.strip r.
Proof.
  apply (X1_parse_condition_result " price >= 500 " "price" ">=" "500").
  reflexivity.
Defined.

(** ** Texts without operator characters *)

Section Clean.

Lemma operator_head (op : string) :
  In op operators ->
  exists c rest, op = String c rest /\ is_operator_char c = true.
Proof.
  intros H. repeat (destruct H as [<-|H]; [eexists _, _; split; reflexivity|]).
  destruct H.
Qed.

(** An operator does not start inside a text without operator
    characters. *)
Lemma prefix_clean_head (c d : ascii) (rest t : string) :
  is_operator_char c = true -> is_operator_char d = false ->
  String.prefix (String c rest) (String d t) = false.
Proof.
  intros Hc Hd. cbn [String.prefix].
  destruct (ascii_dec c d) as [->|]; [congruence | reflexivity].
Qed.

Lemma contains_clean_app (c : ascii) (rest l t : string) :
  is_operator_char c = true -> clean l = true ->
  PyStr.contains (String c rest) (l +:+ t) = PyStr.contains (String c rest) t.
Proof.
  intros Hc. induction l as [|d l IH]; intros Hl; [reflexivity|].
  cbn [clean] in Hl. apply andb_true_iff in Hl as [Hd Hl].
  apply negb_true_iff in Hd.
  change (String d l +:+ t) with (String d (l +:+ t)).
  cbn [PyStr.contains]. rewrite (prefix_clean_head c d) by assumption.
  cbn [orb]. now apply IH.
Qed.

Lemma contains_clean (c : ascii) (rest l : string) :
  is_operator_char c = true -> clean l = true ->
  PyStr.contains (String c rest) l = false.
Proof.
  intros Hc. induction l as [|d l IH]; intros Hl; [reflexivity|].
  cbn [clean] in Hl. apply andb_true_iff in Hl as [Hd Hl].
  apply negb_true_iff in Hd.
  cbn [PyStr.contains]. rewrite (prefix_clean_head c d) by assumption.
  cbn [orb]. now apply IH.
Qed.

Lemma clean_no_operator (s : string) :
  clean s = true -> Forall (fun op => ~ occurs op s) operators.
Proof.
  intros Hs. apply List.Forall_forall. intros op Hin.
  destruct (operator_head op Hin) as (c & rest & -> & Hc).
  apply not_contains_occurs. now apply contains_clean.
Qed.

Lemma not_clean_operator (s : string) :
  clean s = false -> exists op, In op operators /\ occurs op s.
Proof.
  induction s as [|c s IH]; cbn [clean]; [discriminate|].
  intros H. apply andb_false_iff in H as [H|H].
  - apply negb_false_iff in H. unfold is_operator_char in H.
    apply orb_true_iff in H as [H|H]; [apply orb_true_iff in H as [H|H]|];
      apply Ascii.eqb_eq in H; subst c;
      [exists ">" | exists "<" | exists "="];
      (split; [simpl; tauto|]); now exists EmptyString, s.
  - destruct (IH H) as (op & Hin & l & r & ->).
    exists op. split; [exact Hin|]. now exists (String c l), r.
Qed.

End Clean.

(** X2.  [parse_condition] raises its [ValueError] exactly on the texts
    without any of the characters [>], [<], [=], and returns on all the
    others. *)
Theorem X2_parse_condition_raises_iff_clean (s : string) :
  (clean s = true <->
   parse_condition s = Raise (ValueError (MalformedCondition s)))
  /\ (clean s = false <-> exists t, parse_condition s = Ok t).
Proof.
  assert (Hc : clean s = true ->
               parse_condition s = Raise (ValueError (MalformedCondition s))).
  { intros H. apply parse_condition_loop_none. now apply clean_no_operator. }
  assert (Hd : clean s = false -> exists t, parse_condition s = Ok t).
  { intros H. destruct (first_operator_exists _ _ (not_clean_operator _ H))
      as [op Hop].
    destruct (occurs_first_occurrence op s) as (l & r & Hlr).
    { now destruct Hop as (? & ? & _ & ? & _). }
    eexists. now apply (parse_condition_loop_first _ _ _ _ _ Hop Hlr). }
  split; split; try assumption.
  - intros H. destruct (clean s); [reflexivity|].
    destruct (Hd eq_refl) as [t Ht]. congruence.
  - intros [t Ht]. destruct (clean s); [|reflexivity].
    rewrite (Hc eq_refl) in Ht. discriminate.
Qed.

Lemma clean_first_occurrence (l op r : string) :
  clean l = true -> In op operators ->
  first_occurrence op (l +:+ op +:+ r) l r.
Proof.
  intros Hl Hop. split; [reflexivity|].
  destruct (operator_head op Hop) as (c & rest & -> & Hc).
  induction l as [|d l IH]; intros l' r' E; [cbn; lia|].
  cbn [clean] in Hl. apply andb_true_iff in Hl as [Hd Hl].
  apply negb_true_iff in Hd.
  change (String d l +:+ String c rest +:+ r)
    with (String d (l +:+ String c rest +:+ r)) in E.
  destruct l' as [|d' l'].
  - change (EmptyString +:+ String c rest +:+ r')
      with (String c (rest +:+ r')) in E.
    injection E as -> _. congruence.
  - change (String d' l' +:+ String c rest +:+ r')
      with (String d' (l' +:+ String c rest +:+ r')) in E.
    injection E as _ E. specialize (IH Hl _ _ E). cbn [String.length]. lia.
Qed.

Lemma contains_operator_clean (o op r : string) :
  In o operators -> In op operators -> clean r = true ->
  PyStr.contains o (op +:+ r) = PyStr.contains o op.
Proof.
  intros Ho Hop Hr.
  assert (Htail : PyStr.contains o r = false).
  { destruct (operator_head o Ho) as (c & rest & -> & Hc). now apply contains_clean. }
  assert (Hhead : match r with
                  | EmptyString => True
                  | String d _ => is_operator_char d = false
                  end).
  { destruct r as [|d r]; [exact I|]. cbn [clean] in Hr.
    apply andb_true_iff in Hr as [Hd _]. now apply negb_true_iff. }
  clear Hr.
  repeat (destruct Ho as [<-|Ho]; [|]); try destruct Ho;
  repeat (destruct Hop as [<-|Hop]; [|]); try destruct Hop;
  cbv [String.append]; cbn [PyStr.contains String.prefix orb];
  rewrite ?Htail; cbn [orb];
  try reflexivity.
  all: destruct r as [|d r]; cbn [String.prefix orb]; try reflexivity.
  all: repeat match goal with
       | |- context [ascii_dec ?a ?b] =>
           destruct (ascii_dec a b) as [?|?]; try congruence;
           try (subst d; vm_compute in Hhead; discriminate Hhead)
       end; cbn [orb]; try reflexivity.
Qed.

Lemma X2_witness :
  parse_condition "price 500"
  = Raise (ValueError (MalformedCondition "price 500"))
  /\ exists t, parse_condition "a!=b" = Ok t.
Proof.
  split.
  - apply (proj1 (proj1 (X2_parse_condition_raises_iff_clean "price 500"))).
    reflexivity.
  - apply (proj1 (proj2 (X2_parse_condition_raises_iff_clean "a!=b"))).
    reflexivity.
Defined.

(** X3.  A column, an operator of the list and a value written one
    after the other parse back to the trimmed column, the operator ([=]
    as [==]) and the trimmed value, when neither side contains one of
    the characters [>], [<], [=]: each side comes back without its
    leading and its trailing white space, and unchanged when it has
    none.  [" unit price "], [<=] and ["  12.5 "] give
    [("unit price", "<=", "12.5")]. *)
Theorem X3_parse_condition_of_clean_sides :
  (forall l op r,
      clean l = true -> clean r = true -> In op operators ->
      parse_condition (l +:+ op +:+ r)
      = Ok (PyStr.strip l, normalized op, PyStr.strip r) /\
      trim_of l (PyStr.strip l) /\ trim_of r (PyStr.strip r) /\
      (no_white_ends l -> no_white_ends r ->
       parse_condition (l +:+ op +:+ r) = Ok (l, normalized op, r)))
  /\ parse_condition (" unit price " +:+ "<=" +:+ "  12.5 ")
     = Ok ("unit price", "<=", "12.5")
  /\ parse_condition ("a!" +:+ "=" +:+ String "009" "b")
     = Ok ("a!", "==", "b").
Proof.
  split; [|split; reflexivity].
  intros l op r Hl Hr Hop.
  assert (Hparse : parse_condition (l +:+ op +:+ r)
                   = Ok (PyStr.strip l, normalized op, PyStr.strip r)).
  { apply parse_condition_loop_first; [|now apply clean_first_occurrence].
    assert (Hocc : occurs op (l +:+ op +:+ r)) by now exists l, r.
    assert (Hno : forall o, In o operators -> PyStr.contains o op = false ->
                            ~ occurs o (l +:+ op +:+ r)).
    { intros o Ho E. apply not_contains_occurs.
      destruct (operator_head o Ho) as (c & rest & -> & Hc).
      rewrite contains_clean_app by assumption.
      now rewrite contains_operator_clean. }
    unfold operators in Hop.
    destruct Hop as [<-|[<-|[<-|[<-|[<-|[<-|[]]]]]]];
      [ exists [], ["<="; ">"; "<"; "=="; "="]
      | exists [">="], [">"; "<"; "=="; "="]
      | exists [">="; "<="], ["<"; "=="; "="]
      | exists [">="; "<="; ">"], ["=="; "="]
      | exists [">="; "<="; ">"; "<"], ["="]
      | exists [">="; "<="; ">"; "<"; "=="], [] ];
      (split; [reflexivity|]); (split; [exact Hocc|]);
      repeat constructor; apply Hno; solve [simpl; tauto | reflexivity]. }
  split; [exact Hparse|]. split; [apply strip_trim_of|].
  split; [apply strip_trim_of|]. intros Nl Nr.
  now rewrite Hparse, (strip_no_white_ends _ Nl), (strip_no_white_ends _ Nr).
Qed.

Lemma X3_witness :
  (parse_condition (" unit price " +:+ "<=" +:+ "  12.5 ")
   = Ok ("unit price", "<=", "12.5") /\
   trim_of " unit price " "unit price" /\ trim_of "  12.5 " "12.5" /\
   (no_white_ends " unit price " -> no_white_ends "  12.5 " ->
    parse_condition (" unit price " +:+ "<=" +:+ "  12.5 ")
    = Ok (" unit price ", normalized "<=", "  12.5 ")))
  /\ parse_condition ("unit price" +:+ "=" +:+ "12.5")
     = Ok ("unit price", "==", "12.5").
Proof.
  split.
  - apply (proj1 X3_parse_condition_of_clean_sides
             " unit price " "<=" "  12.5 ");
      [reflexivity | reflexivity | simpl; tauto].
  - apply (proj1 X3_parse_condition_of_clean_sides "unit price" "=" "12.5");
      [reflexivity | reflexivity | simpl; tauto | |];
      apply trimmed_no_white_ends; reflexivity.
Defined.

(** ** What [parse_aggregation] returns *)

(** X4.  Whatever [parse_aggregation] returns, the function is one of
    [avg], [min], [max] and the column has no white space at either end;
    they come from the two sides of the first [=]. *)
Theorem X4_parse_aggregation_result (s func_name column : string) :
  parse_aggregation s = Ok (func_name, column) ->
  In func_name supported /\ trimmed column /\
  exists l r, first_occurrence "=" s l r /\
    func_name = PyStr.lower (PyStr.strip l) /\ column = PyStr.strip r.
Proof.
  intros H. split; [now apply (parse_aggregation_supported s _ column)|].
  unfold parse_aggregation in H.
  destruct (PyStr.contains "=" s) eqn:C; [|discriminate].
  apply contains_occurs, occurs_first_occurrence in C as (l & r & Hlr).
  cbn [negb] in H. rewrite (split1_first_occurrence _ _ _ _ Hlr) in H.
  destruct (existsb _ _); [|discriminate].
  injection H as <- <-. split; [apply strip_trimmed|]. now exists l, r.
Qed.

Lemma X4_witness :
  In "max" supported /\ trimmed "unit price" /\
  exists l r, first_occurrence "=" " Max = unit price " l r /\
    "max" = PyStr.lower (PyStr.strip l) /\ "unit price" = PyStr.strip r.
Proof.
  apply (X4_parse_aggregation_result " Max = unit price "). reflexivity.
Defined.

(** ** When [apply_filter] returns *)

Section FilterInversion.

Lemma filter_row_Ok_comparable (column operator value_str : string) (r : row)
  (b : bool) :
  filter_row column operator (coerce_value value_str) r = Ok b ->
  comparable column value_str r.
Proof.
  unfold filter_row, getitem, coerce_value, comparable.
  destruct (r !! column) as [cell|]; [|discriminate]. cbn [bind].
  intros H. exists cell. split; [reflexivity|].
  destruct (PyFloat.of_string value_str); [|congruence].
  destruct (PyFloat.of_string cell); [congruence | discriminate].
Qed.

Lemma filter_loop_Ok_rows (column operator : string) (v : value)
  (data filtered_data rows : list row) :
  filter_loop column operator v data filtered_data = Ok rows ->
  Forall (fun r => exists b, filter_row column operator v r = Ok b) data.
Proof.
  revert filtered_data. induction data as [|r data IH]; intros acc H;
    [constructor|].
  cbn [filter_loop] in H.
  destruct (filter_row column operator v r) as [b|e] eqn:E; [|discriminate].
  cbn [bind] in H. constructor; [now exists b | eapply IH, H].
Qed.

Lemma exit_on_ValueError_Ok {A : Type} (r : result A) (a : A) :
  exit_on_ValueError r = Ok a -> r = Ok a.
Proof. destruct r as [?|[]]; cbn; congruence. Qed.

Lemma apply_filter_Ok (data rows : list row) (condition_str : string) :
  apply_filter data condition_str = Ok rows ->
  data <> [] /\
  exists column operator value_str,
    parse_condition condition_str = Ok (column, operator, value_str) /\
    Forall (comparable column value_str) data /\
    rows = List.filter (satisfies column operator value_str) data.
Proof.
  intros H. pose proof H as H0. unfold apply_filter in H.
  destruct (exit_on_ValueError (parse_condition condition_str))
    as [[[column operator] value_str]|e] eqn:P; [|discriminate].
  apply exit_on_ValueError_Ok in P. cbn [bind] in H.
  destruct data as [|r0 rest]; [discriminate|]. cbn [first_row bind] in H.
  destruct (has_key column r0); [|discriminate]. cbn [negb] in H.
  split; [discriminate|]. exists column, operator, value_str.
  split; [exact P|].
  assert (Hall : Forall (comparable column value_str) (r0 :: rest)).
  { eapply List.Forall_impl; [|exact (filter_loop_Ok_rows _ _ _ _ _ _ H)].
    intros r [b Hb]. exact (filter_row_Ok_comparable _ _ _ _ _ Hb). }
  split; [exact Hall|].
  assert (Hne : r0 :: rest <> []) by discriminate.
  rewrite (apply_filter_comparable _ _ _ _ _ Hne P Hall) in H0.
  now injection H0.
Qed.

Lemma filter_satisfying (column operator value_str : string) (data : list row) :
  Forall (fun r => satisfies column operator value_str r = true)
    (List.filter (satisfies column operator value_str) data).
Proof.
  apply List.Forall_forall. intros r Hr. now apply filter_In in Hr.
Qed.

Lemma filter_comm {A : Type} (f g : A -> bool) (l : list A) :
  List.filter f (List.filter g l) = List.filter g (List.filter f l).
Proof.
  induction l as [|a l IH]; [reflexivity|]. cbn [List.filter].
  destruct (g a) eqn:G, (f a) eqn:F; cbn [List.filter];
    rewrite ?G, ?F, IH; reflexivity.
Qed.

End FilterInversion.

(** X5.  [apply_filter] returns exactly on the non-empty datasets whose rows
    can all be compared with the value of the parsed condition; the rows
    returned are then the satisfying ones, in order. *)
Theorem X5_apply_filter_returns_iff (data rows : list row)
  (condition_str : string) :
  apply_filter data condition_str = Ok rows <->
  data <> [] /\
  exists column operator value_str,
    parse_condition condition_str = Ok (column, operator, value_str) /\
    Forall (comparable column value_str) data /\
    rows = List.filter (satisfies column operator value_str) data.
Proof.
  split; [apply apply_filter_Ok|].
  intros (Hne & column & operator & value_str & Hp & Hall & ->).
  now apply apply_filter_comparable.
Qed.

Lemma X5_witness :
  two_prices <> [] /\
  exists column operator value_str,
    parse_condition "price<650" = Ok (column, operator, value_str) /\
    Forall (comparable column value_str) two_prices /\
    firstn 1 two_prices
    = List.filter (satisfies column operator value_str) two_prices.
Proof.
  apply (proj1 (X5_apply_filter_returns_iff two_prices (firstn 1 two_prices)
                  "price<650")).
  vm_compute. reflexivity.
Defined.

(** X6.  Filtering the rows returned again, by the same condition, gives them
    back; when no row was returned, the second call raises
    [IndexError]. *)
Theorem X6_apply_filter_twice (data rows : list row) (condition_str : string) :
  apply_filter data condition_str = Ok rows ->
  (rows <> [] -> apply_filter rows condition_str = Ok rows) /\
  (rows = [] -> apply_filter rows condition_str = Raise IndexError).
Proof.
  intros H.
  destruct (apply_filter_Ok _ _ _ H)
    as (_ & column & operator & value_str & Hp & _ & ->).
  split.
  - intros Hne.
    pose proof (filter_satisfying column operator value_str data) as Hsat.
    rewrite (apply_filter_comparable _ _ _ _ _ Hne Hp).
    + now rewrite filter_all.
    + eapply List.Forall_impl; [|exact Hsat].
      intros r. apply satisfies_comparable.
  - intros ->. unfold apply_filter. now rewrite Hp.
Qed.

Lemma X6_witness :
  (firstn 1 two_prices <> [] ->
   apply_filter (firstn 1 two_prices) "price<650" = Ok (firstn 1 two_prices))
  /\ (firstn 1 two_prices = [] ->
      apply_filter (firstn 1 two_prices) "price<650" = Raise IndexError).
Proof.
  apply (X6_apply_filter_twice two_prices (firstn 1 two_prices) "price<650").
  vm_compute. reflexivity.
Defined.

(** X7.  Two conditions applied one after the other keep the same rows in
    either order: those that satisfy both. *)
Theorem X7_apply_filter_commutes (data r1 r2 r12 r21 : list row)
  (c1 c2 : string) :
  apply_filter data c1 = Ok r1 -> apply_filter r1 c2 = Ok r12 ->
  apply_filter data c2 = Ok r2 -> apply_filter r2 c1 = Ok r21 ->
  r12 = r21 /\
  forall r, In r r12 <-> In r r1 /\ In r r2.
Proof.
  intros H1 H12 H2 H21.
  destruct (apply_filter_Ok _ _ _ H1) as (_ & k1 & o1 & v1 & P1 & _ & E1).
  destruct (apply_filter_Ok _ _ _ H2) as (_ & k2 & o2 & v2 & P2 & _ & E2).
  destruct (apply_filter_Ok _ _ _ H12) as (_ & k2' & o2' & v2' & P2' & _ & E12).
  destruct (apply_filter_Ok _ _ _ H21) as (_ & k1' & o1' & v1' & P1' & _ & E21).
  rewrite P1 in P1'. injection P1' as <- <- <-.
  rewrite P2 in P2'. injection P2' as <- <- <-.
  subst. split; [apply filter_comm|].
  intros r. rewrite !filter_In. tauto.
Qed.

Lemma X7_witness :
  firstn 1 two_prices = firstn 1 two_prices /\
  forall r, In r (firstn 1 two_prices) <->
            In r two_prices /\ In r (firstn 1 two_prices).
Proof.
  apply (X7_apply_filter_commutes two_prices
           two_prices (firstn 1 two_prices)
           (firstn 1 two_prices) (firstn 1 two_prices)
           "price>500" "price<650"); vm_compute; reflexivity.
Defined.

(** ** NaN in conditions *)

Section NaN.

Lemma SFcompare_nan_free (x y : PyFloat.float) (c : comparison) :
  SFcompare x y = Some c ->
  PyFloat.is_nan x = false /\ PyFloat.is_nan y = false.
Proof. destruct x, y; cbn; intros H; try discriminate H; now split. Qed.

Lemma nan_free_SFcompare (x y : PyFloat.float) :
  PyFloat.is_nan x = false -> PyFloat.is_nan y = false ->
  exists c, SFcompare x y = Some c.
Proof. destruct x, y; cbn; intros Hx Hy; try discriminate; eauto. Qed.

Lemma holds_float_nan_free (operator : string) (x y : PyFloat.float) :
  holds_float operator x y = true ->
  PyFloat.is_nan x = false /\ PyFloat.is_nan y = false.
Proof.
  unfold holds_float. destruct (SFcompare x y) as [c|] eqn:E; [|discriminate].
  intros _. exact (SFcompare_nan_free _ _ _ E).
Qed.

Lemma satisfies_nan_free (column operator value_str : string) (r : row)
  (y : PyFloat.float) :
  PyFloat.of_string value_str = Some y ->
  satisfies column operator value_str r = true ->
  PyFloat.is_nan y = false /\ cell_number column r <> Some PyFloat.nan.
Proof.
  unfold satisfies, cell_number. intros Hy.
  destruct (r !! column) as [cell|]; [|discriminate]. rewrite Hy.
  destruct (PyFloat.of_string cell) as [x|]; [|discriminate].
  intros H. apply holds_float_nan_free in H as [Hx Hy'].
  split; [exact Hy'|]. intros [= ->]. discriminate.
Qed.

End NaN.

(** X8.  With a numeric comparison value, a row whose cell is a NaN is never
    returned, whatever the operator, and when the value itself is a NaN
    no row is returned at all. *)
Theorem X8_nan_never_matches (data rows : list row)
  (condition_str column operator value_str : string) (y : PyFloat.float) :
  parse_condition condition_str = Ok (column, operator, value_str) ->
  PyFloat.of_string value_str = Some y ->
  apply_filter data condition_str = Ok rows ->
  (PyFloat.is_nan y = true -> rows = []) /\
  (forall r, In r rows -> cell_number column r <> Some PyFloat.nan).
Proof.
  intros Hp Hy H.
  destruct (apply_filter_Ok _ _ _ H) as (_ & k & o & v & Hp' & _ & ->).
  rewrite Hp in Hp'. injection Hp' as <- <- <-.
  assert (Hrows : forall r,
            In r (List.filter (satisfies column operator value_str) data) ->
            PyFloat.is_nan y = false /\ cell_number column r <> Some PyFloat.nan).
  { intros r Hr. apply filter_In in Hr as [_ Hr].
    exact (satisfies_nan_free _ _ _ _ _ Hy Hr). }
  split.
  - intros Hnan.
    destruct (List.filter _ data) as [|r rows]; [reflexivity|].
    destruct (Hrows r (or_introl eq_refl)) as [Hy' _]. congruence.
  - intros r Hr. now apply Hrows.
Qed.

Lemma X8_witness :
  (PyFloat.is_nan PyFloat.nan = true -> @nil row = []) /\
  (forall r : row, In r [] -> cell_number "p" r <> Some PyFloat.nan).
Proof.
  apply (X8_nan_never_matches nan_last [] "p == nan" "p" "==" "nan" PyFloat.nan);
    vm_compute; reflexivity.
Defined.

(** ** Complementary operators *)

Section Complement.

Lemma holds_complement (op1 op2 : string) (c : comparison) :
  In (op1, op2) [(">", "<="); ("<", ">="); ("<=", ">"); (">=", "<")] ->
  holds op2 (Some c) = negb (holds op1 (Some c)).
Proof.
  intros H. repeat (destruct H as [[= <- <-]|H]; [now destruct c|]).
  destruct H.
Qed.

Lemma satisfies_complement (column op1 op2 value_str : string) (r : row) :
  In (op1, op2) [(">", "<="); ("<", ">="); ("<=", ">"); (">=", "<")] ->
  comparable column value_str r -> nan_free column value_str r ->
  satisfies column op2 value_str r = negb (satisfies column op1 value_str r).
Proof.
  intros Hop (cell & Hcell & Hnum) Hnan.
  unfold satisfies, nan_free, cell_number in *. rewrite Hcell in *.
  destruct (PyFloat.of_string value_str) as [y|].
  - destruct (PyFloat.of_string cell) as [x|]; [|now exfalso; apply Hnum].
    destruct Hnan as [Hx Hy].
    destruct (nan_free_SFcompare x y Hx Hy) as [c E].
    unfold holds_float. rewrite E. now apply holds_complement.
  - unfold holds_str. now apply holds_complement.
Qed.

End Complement.

(** X9.  Without NaN, a comparison and its complement ([>] and [<=], [<] and
    [>=]) on the same column and value split the dataset: each row is
    returned by exactly one of the two conditions. *)
Theorem X9_complementary_conditions_split (data : list row)
  (c1 c2 column op1 op2 value_str : string) :
  In (op1, op2) [(">", "<="); ("<", ">="); ("<=", ">"); (">=", "<")] ->
  data <> [] ->
  parse_condition c1 = Ok (column, op1, value_str) ->
  parse_condition c2 = Ok (column, op2, value_str) ->
  Forall (comparable column value_str) data ->
  Forall (nan_free column value_str) data ->
  exists r1 r2,
    apply_filter data c1 = Ok r1 /\ apply_filter data c2 = Ok r2 /\
    length r1 + length r2 = length data /\
    forall r, In r data -> (In r r1 <-> ~ In r r2).
Proof.
  intros Hop Hne P1 P2 Hc Hn.
  exists (List.filter (satisfies column op1 value_str) data),
         (List.filter (satisfies column op2 value_str) data).
  split; [now apply apply_filter_comparable|].
  split; [now apply apply_filter_comparable|].
  assert (E : List.filter (satisfies column op2 value_str) data
              = List.filter (fun r => negb (satisfies column op1 value_str r)) data).
  { rewrite List.Forall_forall in Hc, Hn.
    apply filter_ext_in. intros r Hr.
    apply satisfies_complement; auto. }
  rewrite E. split; [apply filter_length|].
  intros r Hr. rewrite !filter_In.
  destruct (satisfies column op1 value_str r); cbn; intuition congruence.
Qed.

Lemma X9_witness :
  exists r1 r2,
    apply_filter two_prices "price>650" = Ok r1 /\
    apply_filter two_prices "price<=650" = Ok r2 /\
    length r1 + length r2 = length two_prices /\
    forall r, In r two_prices -> (In r r1 <-> ~ In r r2).
Proof.
  apply (X9_complementary_conditions_split two_prices
           "price>650" "price<=650" "price" ">" "<=" "650").
  - simpl. tauto.
  - discriminate.
  - reflexivity.
  - reflexivity.
  - constructor; [|constructor; [|constructor]].
    + exists "600". split; [reflexivity | vm_compute; discriminate].
    + exists "700". split; [reflexivity | vm_compute; discriminate].
  - constructor; [|constructor; [|constructor]]; vm_compute; split; reflexivity.
Defined.

(** ** Rows without the column *)

Section MissingKey.

Lemma filter_row_missing (column operator : string) (v : value) (r : row) :
  r !! column = None ->
  filter_row column operator v r = Raise (KeyError column).
Proof. intros H. unfold filter_row, getitem. now rewrite H. Qed.

Lemma values_loop_missing (column : string) (before : list row) (bad : row)
  (after : list row) (values : list PyFloat.float) :
  Forall (fun r => exists x, numeric_cell column r x) before ->
  bad !! column = None ->
  values_loop column (before ++ bad :: after) values = Raise (KeyError column).
Proof.
  intros H Hbad. revert values.
  induction H as [|r before (x & c & Hc & Hx) _ IH]; intros values;
    cbn [app values_loop]; unfold getitem.
  - now rewrite Hbad.
  - rewrite Hc. cbn [bind]. rewrite Hx. apply IH.
Qed.

End MissingKey.

(** X10.  The column is looked up in the first row only: a later row without
    it, after rows that could be handled, makes both engines raise
    [KeyError] instead of exiting with the unknown-column message. *)
Theorem X10_later_row_without_column :
  (forall (first : row) before (bad : row) after
          condition_str column operator value_str,
      parse_condition condition_str = Ok (column, operator, value_str) ->
      Forall (comparable column value_str) (first :: before) ->
      bad !! column = None ->
      apply_filter (first :: before ++ bad :: after) condition_str
      = Raise (KeyError column))
  /\ (forall (first : row) before (bad : row) after
             aggregation_str func_name column,
        parse_aggregation aggregation_str = Ok (func_name, column) ->
        Forall (fun r => exists x, numeric_cell column r x) (first :: before) ->
        bad !! column = None ->
        apply_aggregation (first :: before ++ bad :: after) aggregation_str
        = Raise (KeyError column)).
Proof.
  split.
  - intros first before bad after s column operator value_str Hp Hall Hbad.
    rewrite (apply_filter_parsed _ _ _ _ _ _ Hp).
    pose proof (Forall_inv Hall) as (cell & Hcell & _).
    rewrite (has_key_Some _ _ _ Hcell).
    apply (filter_loop_raise _ _ _ _ (first :: before)).
    + eapply List.Forall_impl; [|exact Hall].
      intros r Hr. eexists. now apply filter_row_comparable.
    + now apply filter_row_missing.
  - intros first before bad after s func_name column Hp Hall Hbad.
    rewrite (apply_aggregation_parsed _ _ _ _ _ Hp).
    pose proof (Forall_inv Hall) as (x & cell & Hcell & _).
    rewrite (has_key_Some _ _ _ Hcell).
    pose proof (values_loop_missing column (first :: before) bad after []
                  Hall Hbad) as L.
    cbn [app] in L. now rewrite L.
Qed.

Lemma X10_witness :
  apply_filter first_row_only "a>0" = Raise (KeyError "a")
  /\ apply_aggregation first_row_only "avg=a" = Raise (KeyError "a").
Proof.
  split.
  - apply (proj1 X10_later_row_without_column
             {[ "a" := "1" ]} [] {[ "b" := "2" ]} [] "a>0" "a" ">" "0").
    + reflexivity.
    + constructor; [|constructor].
      exists "1". split; [reflexivity | vm_compute; discriminate].
    + reflexivity.
  - apply (proj2 X10_later_row_without_column
             {[ "a" := "1" ]} [] {[ "b" := "2" ]} [] "avg=a" "avg" "a").
    + reflexivity.
    + constructor; [|constructor].
      exists (PyFloat.of_Z 1), "1". split; reflexivity.
    + reflexivity.
Defined.

(** ** When [apply_aggregation] returns *)

Section AggregationInversion.

Lemma values_loop_Ok (column : string) (data : list row)
  (values result : list PyFloat.float) :
  values_loop column data values = Ok result ->
  exists vs, result = values ++ vs /\ Forall2 (numeric_cell column) data vs.
Proof.
  revert values. induction data as [|r data IH]; intros values H;
    cbn [values_loop] in H.
  - injection H as <-. exists []. split; [now rewrite app_nil_r | constructor].
  - unfold getitem in H. destruct (r !! column) as [cell|] eqn:Hcell;
      [|discriminate]. cbn [bind] in H.
    destruct (PyFloat.of_string cell) as [x|] eqn:Hx; [|discriminate].
    destruct (IH _ H) as (vs & -> & Hall). exists (x :: vs).
    split; [now rewrite <- app_assoc|].
    constructor; [now exists cell | exact Hall].
Qed.

End AggregationInversion.

(** On the empty dataset no aggregation returns. *)
Lemma apply_aggregation_nil (aggregation_str : string) :
  exists e, apply_aggregation [] aggregation_str = Raise e /\
    forall func_name column,
      parse_aggregation aggregation_str = Ok (func_name, column) ->
      e = IndexError.
Proof.
  unfold apply_aggregation.
  destruct (parse_aggregation aggregation_str) as [[f c]|[]]; cbn;
    eexists; (split; [reflexivity|]); intros; congruence.
Qed.

Lemma apply_aggregation_Ok_nonempty (data : list row)
  (aggregation_str : string) (v : PyFloat.float) :
  apply_aggregation data aggregation_str = Ok v -> data <> [].
Proof.
  intros H ->. destruct (apply_aggregation_nil aggregation_str) as (e & E & _).
  congruence.
Qed.

(** X11.  [apply_aggregation] returns only on a non-empty dataset whose
    cells under the column are all numbers, and what it returns is the
    mean, the [min] or the [max] of these numbers: neither of the two
    [return 0.0] of the function is ever taken. *)
Theorem X11_apply_aggregation_returns_only (data : list row)
  (aggregation_str : string) (v : PyFloat.float) :
  apply_aggregation data aggregation_str = Ok v ->
  data <> [] /\
  exists func_name column first others,
    parse_aggregation aggregation_str = Ok (func_name, column) /\
    Forall2 (numeric_cell column) data (first :: others) /\
    (func_name = "avg" /\ v = arithmetic_mean (first :: others) \/
     func_name = "min" /\ v = PyFloat.min first others \/
     func_name = "max" /\ v = PyFloat.max first others).
Proof.
  intros H. pose proof H as H0. unfold apply_aggregation in H.
  destruct (exit_on_ValueError (parse_aggregation aggregation_str))
    as [[func_name column]|e] eqn:P; [|discriminate].
  apply exit_on_ValueError_Ok in P. cbn [bind] in H.
  destruct data as [|r0 rest]; [discriminate|]. cbn [first_row bind] in H.
  destruct (has_key column r0); [|discriminate]. cbn [negb] in H.
  destruct (values_loop column (r0 :: rest) []) as [values|e] eqn:L;
    [|discriminate].
  destruct (values_loop_Ok _ _ _ _ L) as (vs & -> & Hall).
  cbn [app] in *.
  assert (Hne : r0 :: rest <> []) by discriminate.
  split; [exact Hne|].
  destruct (apply_aggregation_numeric _ _ _ _ _ Hne P Hall)
    as (first & others & -> & E).
  rewrite E in H0. exists func_name, column, first, others.
  split; [exact P|]. split; [exact Hall|].
  pose proof (parse_aggregation_supported _ _ _ P) as Hs.
  destruct Hs as [<-|[<-|[<-|[]]]]; cbn in H0; injection H0 as <-; auto.
Qed.

Lemma X11_witness :
  two_prices <> [] /\
  exists func_name column first others,
    parse_aggregation "max=price" = Ok (func_name, column) /\
    Forall2 (numeric_cell column) two_prices (first :: others) /\
    (func_name = "avg" /\ PyFloat.of_Z 700 = arithmetic_mean (first :: others) \/
     func_name = "min" /\ PyFloat.of_Z 700 = PyFloat.min first others \/
     func_name = "max" /\ PyFloat.of_Z 700 = PyFloat.max first others).
Proof.
  apply (X11_apply_aggregation_returns_only two_prices "max=price").
  vm_compute. reflexivity.
Defined.

(** X12.  On a column without NaN the minimum is at most the maximum, and both
    are numbers of the column. *)
Theorem X12_min_at_most_max (data : list row) (vs : list PyFloat.float)
  (agg_min agg_max column : string) :
  data <> [] ->
  Forall2 (numeric_cell column) data vs ->
  Forall (fun x => PyFloat.is_nan x = false) vs ->
  parse_aggregation agg_min = Ok ("min", column) ->
  parse_aggregation agg_max = Ok ("max", column) ->
  exists lo hi,
    apply_aggregation data agg_min = Ok lo /\
    apply_aggregation data agg_max = Ok hi /\
    In lo vs /\ In hi vs /\ PyFloat.le lo hi = true.
Proof.
  intros Hne Hall Hnan Pmin Pmax.
  destruct (apply_aggregation_numeric _ _ _ _ _ Hne Pmin Hall)
    as (first & others & -> & Emin).
  destruct (apply_aggregation_numeric _ _ _ _ _ Hne Pmax Hall)
    as (first' & others' & [= <- <-] & Emax).
  cbn in Emin, Emax.
  destruct (min_spec first others) as [Hin_lo Hlo].
  destruct (max_spec first others) as [Hin_hi _].
  exists (PyFloat.min first others), (PyFloat.max first others).
  repeat split; try assumption.
  pose proof (no_smaller_lower_bound _ _ Hin_lo Hnan Hlo) as Hb.
  rewrite List.Forall_forall in Hb. now apply Hb.
Qed.

Lemma X12_witness :
  exists lo hi,
    apply_aggregation two_prices "min=price" = Ok lo /\
    apply_aggregation two_prices "max=price" = Ok hi /\
    In lo [PyFloat.of_Z 600; PyFloat.of_Z 700] /\
    In hi [PyFloat.of_Z 600; PyFloat.of_Z 700] /\ PyFloat.le lo hi = true.
Proof.
  apply (X12_min_at_most_max two_prices _ "min=price" "max=price" "price").
  - discriminate.
  - constructor; [|constructor; [|constructor]].
    + exists "600". split; reflexivity.
    + exists "700". split; reflexivity.
  - repeat constructor.
  - reflexivity.
  - reflexivity.
Defined.

(** ** The driver *)

Section Main.

Lemma given_Some (s : string) : s <> "" -> given (Some s) = Some s.
Proof. destruct s; [contradiction | reflexivity]. Qed.

Lemma given_inv (arg : option string) (s : string) :
  given arg = Some s -> arg = Some s /\ s <> "".
Proof.
  destruct arg as [[|c t]|]; cbn; intros [= <-]. split; [reflexivity | discriminate].
Qed.

End Main.

(** X13.  A condition that no row satisfies: [main] prints an empty table when
    no aggregate is asked for, and raises when one is: [IndexError] when
    the aggregation is well formed.  No aggregate line is printed. *)
Theorem X13_main_filter_without_match (data : list row)
  (condition_str : string) :
  condition_str <> "" ->
  apply_filter data condition_str = Ok [] ->
  main data (Some condition_str) None = Ok (Table []) /\
  forall aggregation_str, aggregation_str <> "" ->
    exists e,
      main data (Some condition_str) (Some aggregation_str) = Raise e /\
      forall func_name column,
        parse_aggregation aggregation_str = Ok (func_name, column) ->
        e = IndexError.
Proof.
  intros Hc H. destruct (apply_filter_Ok _ _ _ H) as [Hne _].
  destruct data as [|r0 rest]; [contradiction|].
  unfold main. rewrite (given_Some _ Hc), H. cbn [bind].
  split; [reflexivity|]. intros a Ha. rewrite (given_Some _ Ha).
  destruct (apply_aggregation_nil a) as (e & E & He).
  exists e. rewrite E. split; [reflexivity | exact He].
Qed.

Lemma X13_witness :
  main two_prices (Some "price>2000") None = Ok (Table []) /\
  forall aggregation_str, aggregation_str <> "" ->
    exists e,
      main two_prices (Some "price>2000") (Some aggregation_str) = Raise e /\
      forall func_name column,
        parse_aggregation aggregation_str = Ok (func_name, column) ->
        e = IndexError.
Proof.
  apply (X13_main_filter_without_match two_prices "price>2000").
  - discriminate.
  - vm_compute. reflexivity.
Defined.

(** X14.  An aggregate line printed by [main] names one of the three
    functions, is formatted with three decimals exactly for [avg], and
    carries the aggregate of a non-empty list of rows: the dataset, or
    the rows returned by the filter. *)
Theorem X14_main_aggregate_line (data : list row)
  (args_where args_aggregate : option string)
  (func_name column : string) (v : PyFloat.float) (three_decimals : bool) :
  main data args_where args_aggregate
  = Ok (AggregateLine func_name column v three_decimals) ->
  In func_name supported /\
  three_decimals = String.eqb func_name "avg" /\
  exists aggregation_str rows,
    args_aggregate = Some aggregation_str /\ aggregation_str <> "" /\
    parse_aggregation aggregation_str = Ok (func_name, column) /\
    rows <> [] /\ apply_aggregation rows aggregation_str = Ok v /\
    (given args_where = None /\ rows = data \/
     exists condition_str,
       args_where = Some condition_str /\
       apply_filter data condition_str = Ok rows).
Proof.
  unfold main. destruct data as [|r0 rest]; [discriminate|].
  destruct (given args_aggregate) as [a|] eqn:Ga.
  2:{ destruct (given args_where); [destruct (apply_filter _ _)|]; discriminate. }
  apply given_inv in Ga as [-> Ha].
  assert (Hagg : forall rows,
    (let* result := apply_aggregation rows a in
     let* (f, c) := parse_aggregation a in
     Ok (AggregateLine f c result (String.eqb f "avg")))
    = Ok (AggregateLine func_name column v three_decimals) ->
    In func_name supported /\ three_decimals = String.eqb func_name "avg" /\
    parse_aggregation a = Ok (func_name, column) /\
    rows <> [] /\ apply_aggregation rows a = Ok v).
  { intros rows H.
    destruct (apply_aggregation rows a) as [x|] eqn:E; [|discriminate].
    cbn [bind] in H.
    destruct (parse_aggregation a) as [[f c]|] eqn:P; [|discriminate].
    cbn [bind] in H. injection H as -> -> -> <-.
    split; [exact (parse_aggregation_supported _ _ _ P)|].
    split; [reflexivity|]. split; [reflexivity|].
    split; [exact (apply_aggregation_Ok_nonempty _ _ _ E) | reflexivity]. }
  destruct (given args_where) as [w|] eqn:Gw.
  - apply given_inv in Gw as [-> Hw].
    destruct (apply_filter (r0 :: rest) w) as [rows|] eqn:F; [|discriminate].
    cbn [bind]. intros H. destruct (Hagg rows H) as (H1 & H2 & H3 & H4 & H5).
    split; [exact H1|]. split; [exact H2|]. exists a, rows.
    repeat split; try assumption. right. now exists w.
  - cbn [bind]. intros H.
    destruct (Hagg (r0 :: rest) H) as (H1 & H2 & H3 & H4 & H5).
    split; [exact H1|]. split; [exact H2|]. exists a, (r0 :: rest).
    repeat split; try assumption. now left.
Qed.

Lemma X14_witness :
  In "avg" supported /\
  true = String.eqb "avg" "avg" /\
  exists aggregation_str rows,
    Some "avg=price" = Some aggregation_str /\ aggregation_str <> "" /\
    parse_aggregation aggregation_str = Ok ("avg", "price") /\
    rows <> [] /\ apply_aggregation rows aggregation_str = Ok (PyFloat.of_Z 700) /\
    (given (Some "price>650") = None /\ rows = two_prices \/
     exists condition_str,
       Some "price>650" = Some condition_str /\
       apply_filter two_prices condition_str = Ok rows).
Proof.
  apply (X14_main_aggregate_line two_prices (Some "price>650")
           (Some "avg=price") "avg" "price" (PyFloat.of_Z 700) true).
  vm_compute. reflexivity.
Defined.

(** X15.  The notice for a file without rows is printed exactly when the
    dataset is empty, whatever the two options hold: they are not even
    parsed then. *)
Theorem X15_main_no_data (data : list row)
  (args_where args_aggregate : option string) :
  main data args_where args_aggregate = Ok NoData <-> data = [].
Proof.
  split; [|now intros ->].
  destruct data as [|r0 rest]; [reflexivity|]. unfold main.
  destruct (given args_where) as [w|];
    [destruct (apply_filter (r0 :: rest) w) as [rows|]|]; cbn [bind];
    try discriminate;
    (destruct (given args_aggregate) as [a|]; [|discriminate]);
    match goal with
    | |- context [apply_aggregation ?d a] =>
        destruct (apply_aggregation d a); cbn [bind]; [|discriminate]
    end;
    destruct (parse_aggregation a) as [[f c]|]; cbn [bind]; discriminate.
Qed.

Lemma X15_witness :
  main [] (Some "no operator here") (Some "sum=price") = Ok NoData.
Proof.
  apply (proj2 (X15_main_no_data [] (Some "no operator here")
                  (Some "sum=price"))).
  reflexivity.
Defined.

(** ** The order of the rows *)

Section RowOrder.

Lemma le_antisym_eq (x y : PyFloat.float) :
  PyFloat.le x y = true -> PyFloat.le y x = true -> PyFloat.eq x y = true.
Proof.
  unfold PyFloat.le, PyFloat.eq, SFleb, SFeqb.
  rewrite (SFcompare_antisym x y).
  destruct (SFcompare x y) as [[| |]|]; cbn; congruence.
Qed.

End RowOrder.

(** X16.  Without NaN, [min] and [max] do not depend on the order of the rows
    nor on repetitions: two datasets whose columns hold the same numbers
    have equal minima and equal maxima (equal as numbers: [==]). *)
Theorem X16_min_max_of_same_numbers (data data' : list row)
  (vs vs' : list PyFloat.float) (agg_min agg_max column : string) :
  data <> [] -> data' <> [] ->
  Forall2 (numeric_cell column) data vs ->
  Forall2 (numeric_cell column) data' vs' ->
  (forall x, In x vs <-> In x vs') ->
  Forall (fun x => PyFloat.is_nan x = false) vs ->
  parse_aggregation agg_min = Ok ("min", column) ->
  parse_aggregation agg_max = Ok ("max", column) ->
  exists lo lo' hi hi',
    apply_aggregation data agg_min = Ok lo /\
    apply_aggregation data' agg_min = Ok lo' /\
    apply_aggregation data agg_max = Ok hi /\
    apply_aggregation data' agg_max = Ok hi' /\
    PyFloat.eq lo lo' = true /\ PyFloat.eq hi hi' = true.
Proof.
  intros Hne Hne' Hall Hall' Hsame Hnan Pmin Pmax.
  assert (Hnan' : Forall (fun x => PyFloat.is_nan x = false) vs').
  { rewrite List.Forall_forall in *. intros x Hx. apply Hnan, Hsame, Hx. }
  destruct (apply_aggregation_numeric _ _ _ _ _ Hne Pmin Hall)
    as (a & l & -> & Emin).
  destruct (apply_aggregation_numeric _ _ _ _ _ Hne Pmax Hall)
    as (? & ? & [= <- <-] & Emax).
  destruct (apply_aggregation_numeric _ _ _ _ _ Hne' Pmin Hall')
    as (a' & l' & -> & Emin').
  destruct (apply_aggregation_numeric _ _ _ _ _ Hne' Pmax Hall')
    as (? & ? & [= <- <-] & Emax').
  cbn in Emin, Emax, Emin', Emax'.
  destruct (min_spec a l) as [Ilo Hlo]. destruct (min_spec a' l') as [Ilo' Hlo'].
  destruct (max_spec a l) as [Ihi Hhi]. destruct (max_spec a' l') as [Ihi' Hhi'].
  pose proof (no_smaller_lower_bound _ _ Ilo Hnan Hlo) as Blo.
  pose proof (no_smaller_lower_bound _ _ Ilo' Hnan' Hlo') as Blo'.
  pose proof (no_greater_upper_bound _ _ Ihi Hnan Hhi) as Bhi.
  pose proof (no_greater_upper_bound _ _ Ihi' Hnan' Hhi') as Bhi'.
  rewrite List.Forall_forall in Blo, Blo', Bhi, Bhi'.
  exists (PyFloat.min a l), (PyFloat.min a' l'),
         (PyFloat.max a l), (PyFloat.max a' l').
  repeat split; try assumption.
  - apply le_antisym_eq; [apply Blo, Hsame, Ilo' | apply Blo', Hsame, Ilo].
  - apply le_antisym_eq.
    + apply (Bhi' _ (proj1 (Hsame _) Ihi)).
    + apply (Bhi _ (proj2 (Hsame _) Ihi')).
Qed.

Lemma X16_witness :
  exists lo lo' hi hi',
    apply_aggregation two_prices "min=price" = Ok lo /\
    apply_aggregation (rev two_prices) "min=price" = Ok lo' /\
    apply_aggregation two_prices "max=price" = Ok hi /\
    apply_aggregation (rev two_prices) "max=price" = Ok hi' /\
    PyFloat.eq lo lo' = true /\ PyFloat.eq hi hi' = true.
Proof.
  apply (X16_min_max_of_same_numbers two_prices (rev two_prices)
           [PyFloat.of_Z 600; PyFloat.of_Z 700]
           [PyFloat.of_Z 700; PyFloat.of_Z 600]
           "min=price" "max=price" "price").
  - discriminate.
  - discriminate.
  - constructor; [|constructor; [|constructor]].
    + exists "600". split; reflexivity.
    + exists "700". split; reflexivity.
  - constructor; [|constructor; [|constructor]].
    + exists "700". split; reflexivity.
    + exists "600". split; reflexivity.
  - intros x. simpl. tauto.
  - repeat constructor.
  - reflexivity.
  - reflexivity.
Defined.
